(** * HTU21D humidity / temperature sensor driver

    A shallow embedding of [Particle/GreenMcp/lib/SparkFunHTU21D.cpp]:
    the I2C port the driver talks to is an explicit state, the driver's
    member functions are computations over that state, fixed-width C
    integers are [Z] with their wrap-around written out, and the
    [float] / [double] arithmetic of the unit conversions is IEEE-754
    binary32 / binary64 arithmetic over [spec_float]. *)

From Stdlib Require Import ZArith List Bool Lia QArith Qabs Lqa.
From Stdlib Require Import Floats.SpecFloat.
Import ListNotations.

Local Open Scope Z_scope.

(** ** Fixed-width integers *)

Module CInt.

(** Conversion to [byte] / [uint8_t]. *)
Definition u8 (x : Z) : Z := x mod 256.

(** Conversion to [uint16_t]. *)
Definition u16 (x : Z) : Z := x mod 65536.

(** Conversion to [uint32_t]. *)
Definition u32 (x : Z) : Z := x mod 4294967296.

End CInt.
Import CInt.

(** ** The I2C port ([TwoWire]) *)

Module Wire.

(** The part of a [TwoWire] object and of the bus behind it that the
    driver can observe.  [replies] is the behaviour of the device:
    the bytes it will deliver on each of the coming [requestFrom]
    calls, in order (nothing once the list is used up).  [rxBuffer]
    holds the bytes received and not yet [read]; [txAddress] and
    [txBuffer] the transmission being composed; [sent] the completed
    transmissions, oldest first.  [requests] counts the [requestFrom]
    calls made and [elapsed] the milliseconds spent in [delay]. *)
Record TwoWire : Type := mkWire {
  replies   : list (list Z);
  rxBuffer  : list Z;
  txAddress : Z;
  txBuffer  : list Z;
  sent      : list (Z * list Z);
  requests  : Z;
  elapsed   : Z
}.

(** Computations on the port; [None] is a loop that was cut off
    before its exit. *)
Definition M (A : Type) : Type := TwoWire -> option (A * TwoWire).

Definition ret {A} (a : A) : M A := fun w => Some (a, w).

Definition bind {A B} (c : M A) (k : A -> M B) : M B :=
  fun w => match c w with
           | Some (a, w') => k a w'
           | None => None
           end.

Definition beginTransmission (address : Z) : M unit := fun w =>
  Some (tt, mkWire (replies w) (rxBuffer w) address [] (sent w)
                   (requests w) (elapsed w)).

Definition write (b : Z) : M unit := fun w =>
  Some (tt, mkWire (replies w) (rxBuffer w) (txAddress w)
                   (txBuffer w ++ [u8 b]) (sent w)
                   (requests w) (elapsed w)).

Definition endTransmission : M unit := fun w =>
  Some (tt, mkWire (replies w) (rxBuffer w) (txAddress w) []
                   (sent w ++ [(txAddress w, txBuffer w)])
                   (requests w) (elapsed w)).

(** Ask the device for up to [quantity] bytes; the answer replaces
    the receive buffer and its length is returned. *)
Definition requestFrom (address : Z) (quantity : nat) : M Z := fun w =>
  let got := firstn quantity (hd [] (replies w)) in
  Some (Z.of_nat (length got),
        mkWire (tl (replies w)) got (txAddress w) (txBuffer w) (sent w)
               (requests w + 1) (elapsed w)).

(** Next received byte, or -1 when the buffer is empty. *)
Definition read : M Z := fun w =>
  match rxBuffer w with
  | [] => Some (-1, w)
  | b :: rest =>
      Some (b, mkWire (replies w) rest (txAddress w) (txBuffer w) (sent w)
                      (requests w) (elapsed w))
  end.

Definition delay (ms : Z) : M unit := fun w =>
  Some (tt, mkWire (replies w) (rxBuffer w) (txAddress w) (txBuffer w)
                   (sent w) (requests w) (elapsed w + ms)).

(** A port on which nothing has happened yet, in front of a device
    that behaves as [script]. *)
Definition fresh (script : list (list Z)) : TwoWire :=
  mkWire script [] 0 [] [] 0 0.

End Wire.
Import Wire.

Notation "x <- c1 ;; c2" := (bind c1 (fun x => c2))
  (at level 61, c1 at next level, right associativity).
Notation "c1 ;;; c2" := (bind c1 (fun _ => c2))
  (at level 61, right associativity).

(** ** Constants *)

(** The command bytes and the bus address are defined in
    [SparkFunHTU21D.h], which is not part of the sources; the driver is
    parameterised by them. *)
Record Header : Type := mkHeader {
  HTU21D_ADDRESS : Z;
  TRIGGER_HUMD_MEASURE_NOHOLD : Z;
  TRIGGER_TEMP_MEASURE_NOHOLD : Z;
  READ_USER_REG : Z;
  WRITE_USER_REG : Z
}.

(** The values of the sensor's data sheet. *)
Definition datasheet : Header := mkHeader 0x40 0xF5 0xF3 0xE7 0xE6.

(** Modelled from the spec: [ERROR_I2C_TIMEOUT] is defined in
    [SparkFunHTU21D.h], which is not part of the sources; its value is
    the one the comment above [readHumidity] gives ("Returns 998 if I2C
    timed out"). *)
Definition ERROR_I2C_TIMEOUT : Z := 998.

(** Modelled from the spec: [ERROR_BAD_CRC] is defined in
    [SparkFunHTU21D.h], which is not part of the sources; its value is
    the one the comment above [readHumidity] gives ("Returns 999 if CRC
    is wrong"). *)
Definition ERROR_BAD_CRC : Z := 999.

Definition MAX_WAIT : Z := 100.
Definition DELAY_INTERVAL : Z := 10.
Definition MAX_COUNTER : Z := MAX_WAIT / DELAY_INTERVAL.

(** [0x0131] shifted to the far left of three bytes. *)
Definition SHIFTED_DIVISOR : Z := 0x988000.

(** Arduino's binary literals [B01111110] and [B10000001]. *)
Definition B01111110 : Z := 126.
Definition B10000001 : Z := 129.

(** ** Floating point

    [float] is IEEE-754 binary32 and [double] is binary64 (the types of
    the ARM targets the Particle firmware is built for); every
    operation rounds to nearest, ties to even.  A literal or a
    conversion is the correctly rounded value. *)

Module FP.

Definition double_of_int (z : Z) : spec_float :=
  binary_normalize 53 1024 z 0 false.

Definition float_of_int (z : Z) : spec_float :=
  binary_normalize 24 128 z 0 false.

Definition float_of_double (x : spec_float) : spec_float :=
  match x with
  | S754_finite s m e => binary_round 24 128 s m e
  | _ => x
  end.

Definition double_of_float (x : spec_float) : spec_float :=
  match x with
  | S754_finite s m e => binary_round 53 1024 s m e
  | _ => x
  end.

Definition dmul : spec_float -> spec_float -> spec_float := SFmul 53 1024.
Definition dsub : spec_float -> spec_float -> spec_float := SFsub 53 1024.
Definition ddiv : spec_float -> spec_float -> spec_float := SFdiv 53 1024.

(** The [double] literal with decimal digits [digits], the last
    [places] of them after the point: [dlit 17572 2] is [175.72]. *)
Definition dlit (digits : Z) (places : Z) : spec_float :=
  ddiv (double_of_int digits) (double_of_int (10 ^ places)).

(** The rational number a floating-point value stands for (0 for
    infinities and NaN, which the conversions never produce). *)
Definition SF2Q (x : spec_float) : Q :=
  match x with
  | S754_finite s m e =>
      let v := match e with
               | Z0 => inject_Z (Zpos m)
               | Zpos p => inject_Z (Zpos m * 2 ^ Zpos p)
               | Zneg p => Qmake (Zpos m) (2 ^ p)
               end in
      if s then Qopp v else v
  | _ => 0%Q
  end.

Definition is_finite (x : spec_float) : bool :=
  match x with
  | S754_finite _ _ _ | S754_zero _ => true
  | _ => false
  end.

End FP.
Import FP.

(** ** CRC check *)

(** One turn of the loop of [checkCRC], at loop index [i]. *)
Definition crc_step (st : Z * Z) (i : Z) : Z * Z :=
  let '(remainder, divsor) := st in
  let remainder :=
    if Z.land remainder (u32 (Z.shiftl 1 (23 - i))) =? 0
    then remainder
    else Z.lxor remainder divsor in
  (remainder, Z.shiftr divsor 1).

(** [for (int i = 0 ; i < 16 ; i++)] *)
Definition crc_indices : list Z := map Z.of_nat (seq 0 16).

(** [message_from_sensor] is a [uint16_t], [check_value_from_sensor] a
    [uint8_t]. *)
Definition checkCRC (message_from_sensor check_value_from_sensor : Z) : Z :=
  let remainder := u32 (Z.shiftl message_from_sensor 8) in
  let remainder := Z.lor remainder check_value_from_sensor in
  let divsor := SHIFTED_DIVISOR in
  let '(remainder, _) := fold_left crc_step crc_indices (remainder, divsor) in
  u8 remainder.

(** ** Reading a measurement *)

(** The [return] statement by which [readValue] is left. *)
Inductive Outcome : Type :=
| Timeout       (* [return (ERROR_I2C_TIMEOUT)] *)
| CrcMismatch   (* [return (ERROR_BAD_CRC)] *)
| Measured.     (* [return rawValue & 0xFFFC] *)

(** The constant subexpressions [(125.0 / 65536.0)] and
    [(175.72 / 65536.0)], and the literals [6.0] and [46.85]. *)
Definition humidity_scale : spec_float :=
  Eval vm_compute in ddiv (dlit 1250 1) (dlit 655360 1).
Definition humidity_offset : spec_float :=
  Eval vm_compute in dlit 60 1.
Definition temperature_scale : spec_float :=
  Eval vm_compute in ddiv (dlit 17572 2) (dlit 655360 1).
Definition temperature_offset : spec_float :=
  Eval vm_compute in dlit 4685 2.

(** Lines 109-110 of [readHumidity]. *)
Definition humidity (rawHumidity : Z) : spec_float :=
  let tempRH := float_of_double (dmul (double_of_int rawHumidity) humidity_scale) in
  let rh := float_of_double (dsub (double_of_float tempRH) humidity_offset) in
  rh.

(** Lines 127-128 of [readTemperature]. *)
Definition celsius (rawTemperature : Z) : spec_float :=
  let tempTemperature :=
    float_of_double (dmul (double_of_int rawTemperature) temperature_scale) in
  let realTemperature :=
    float_of_double (dsub (double_of_float tempTemperature) temperature_offset) in
  realTemperature.

Section Driver.

Variable hdr : Header.

(** The polling loop of [readValue]:
    [for (counter = 0, toRead = 0 ; counter < MAX_COUNTER && toRead != 3 ; counter++)].
    [fuel] bounds the number of turns the model follows. *)
Fixpoint poll (fuel : nat) (counter toRead : Z) : M (Z * Z) :=
  if (counter <? MAX_COUNTER) && negb (toRead =? 3) then
    match fuel with
    | O => fun _ => None
    | S fuel' =>
        delay DELAY_INTERVAL ;;;
        n <- requestFrom (HTU21D_ADDRESS hdr) 3 ;;
        poll fuel' (u8 (counter + 1)) (u8 n)
    end
  else ret (counter, toRead).

(** What [readValue] does once the loop is left; the result carries
    the [return] statement taken next to the value returned. *)
Definition fetch (counter : Z) : M (Outcome * Z) :=
  if counter =? MAX_COUNTER then ret (Timeout, u16 ERROR_I2C_TIMEOUT)
  else
    msb <- read ;;
    lsb <- read ;;
    checksum <- read ;;
    let msb := u8 msb in
    let lsb := u8 lsb in
    let checksum := u8 checksum in
    let rawValue := u16 (Z.lor (Z.shiftl (u16 msb) 8) (u16 lsb)) in
    if negb (checkCRC rawValue checksum =? 0)
    then ret (CrcMismatch, u16 ERROR_BAD_CRC)
    else ret (Measured, Z.land rawValue 0xFFFC).

Definition readValue_traced (fuel : nat) (cmd : Z) : M (Outcome * Z) :=
  beginTransmission (HTU21D_ADDRESS hdr) ;;;
  write cmd ;;;
  endTransmission ;;;
  ct <- poll fuel 0 0 ;;
  fetch (fst ct).

(** [uint16_t HTU21D::readValue(byte cmd)] *)
Definition readValue (fuel : nat) (cmd : Z) : M Z :=
  r <- readValue_traced fuel cmd ;;
  ret (snd r).

(** [float HTU21D::readHumidity(void)] *)
Definition readHumidity (fuel : nat) : M spec_float :=
  rawHumidity <- readValue fuel (TRIGGER_HUMD_MEASURE_NOHOLD hdr) ;;
  if (rawHumidity =? ERROR_I2C_TIMEOUT) || (rawHumidity =? ERROR_BAD_CRC)
  then ret (float_of_int rawHumidity)
  else ret (humidity rawHumidity).

(** [float HTU21D::readTemperature(void)] *)
Definition readTemperature (fuel : nat) : M spec_float :=
  rawTemperature <- readValue fuel (TRIGGER_TEMP_MEASURE_NOHOLD hdr) ;;
  if (rawTemperature =? ERROR_I2C_TIMEOUT) || (rawTemperature =? ERROR_BAD_CRC)
  then ret (float_of_int rawTemperature)
  else ret (celsius rawTemperature).

(** ** The user register *)

Definition readUserRegister : M Z :=
  beginTransmission (HTU21D_ADDRESS hdr) ;;;
  write (READ_USER_REG hdr) ;;;
  endTransmission ;;;
  _ <- requestFrom (HTU21D_ADDRESS hdr) 1 ;;
  userRegister <- read ;;
  ret (u8 userRegister).

Definition writeUserRegister (val : Z) : M unit :=
  beginTransmission (HTU21D_ADDRESS hdr) ;;;
  write (WRITE_USER_REG hdr) ;;;
  write val ;;;
  endTransmission.

(** [void HTU21D::setResolution(byte resolution)] *)
Definition setResolution (resolution : Z) : M unit :=
  let resolution := u8 resolution in
  userRegister <- readUserRegister ;;
  let userRegister := Z.land userRegister B01111110 in
  let resolution := Z.land resolution B10000001 in
  let userRegister := Z.lor userRegister resolution in
  writeUserRegister userRegister.

End Driver.

(** ** The forward checksum

    The checksum the sensor appends to a 16-bit word: the CRC-8 of the
    two bytes, most significant bit first, generator
    [x^8 + x^5 + x^4 + 1] ([0x0131]), register initially 0.  It is
    computed on the sensor, not by the driver. *)

Definition crc8_bit (crc : Z) : Z :=
  if Z.testbit crc 7
  then Z.lxor (u8 (Z.shiftl crc 1)) (u8 0x0131)
  else u8 (Z.shiftl crc 1).

Definition crc8_byte (crc b : Z) : Z :=
  Nat.iter 8 crc8_bit (Z.lxor crc b).

Definition crc8 (value : Z) : Z :=
  fold_left crc8_byte [Z.shiftr value 8; u8 value] 0.

(** * Properties *)

(** ** Exhaustive checks over [n]-bit values *)

(** [P] holds of the [2^n] values whose leading bits are [base]. *)
Fixpoint all_bits (n : nat) (base : Z) (P : Z -> bool) : bool :=
  match n with
  | O => P base
  | S k => all_bits k (2 * base) P && all_bits k (2 * base + 1) P
  end.

Lemma all_bits_spec (n : nat) :
  forall base P, all_bits n base P = true ->
  forall v, base * 2 ^ Z.of_nat n <= v < (base + 1) * 2 ^ Z.of_nat n ->
  P v = true.
Proof.
  induction n as [|k IH]; intros base P H v Hv.
  - simpl in *. replace v with base by lia. exact H.
  - cbn [all_bits] in H. apply andb_prop in H. destruct H as [Hl Hr].
    rewrite Nat2Z.inj_succ, Z.pow_succ_r in Hv by lia.
    assert (Hp : 0 < 2 ^ Z.of_nat k) by (apply Z.pow_pos_nonneg; lia).
    destruct (Z_lt_le_dec v ((2 * base + 1) * 2 ^ Z.of_nat k)) as [Hlt|Hge].
    + apply (IH _ _ Hl). nia.
    + apply (IH _ _ Hr). nia.
Qed.

Lemma all_bits_below (n : nat) (P : Z -> bool) :
  all_bits n 0 P = true ->
  forall v, 0 <= v < 2 ^ Z.of_nat n -> P v = true.
Proof.
  intros H v Hv. apply (all_bits_spec n 0 P H). lia.
Qed.

(** ** Bitwise facts *)

Ltac bitwise :=
  apply Z.bits_inj'; intros ?j ?Hj;
  repeat first [ rewrite Z.lxor_spec | rewrite Z.land_spec | rewrite Z.lor_spec ].

Lemma testbit_small (x n j : Z) :
  0 <= x < 2 ^ n -> n <= j -> Z.testbit x j = false.
Proof.
  intros Hx Hj.
  destruct (Z_lt_le_dec n 0) as [Hn|Hn].
  - rewrite Z.pow_neg_r in Hx by lia. lia.
  - rewrite <- (Z.mod_small x (2 ^ n)) by lia.
    apply Z.mod_pow2_bits_high. lia.
Qed.

Lemma land_pow2_eqb (r k : Z) :
  0 <= k -> (Z.land r (2 ^ k) =? 0) = negb (Z.testbit r k).
Proof.
  intros Hk. destruct (Z.testbit r k) eqn:E; simpl.
  - apply Z.eqb_neq. intros H0.
    assert (Hb : Z.testbit (Z.land r (2 ^ k)) k = true)
      by (rewrite Z.land_spec, E, Z.pow2_bits_true by lia; reflexivity).
    rewrite H0, Z.bits_0 in Hb. discriminate.
  - apply Z.eqb_eq. bitwise. rewrite Z.bits_0, Z.pow2_bits_eqb by lia.
    destruct (Z.eqb_spec k j) as [->|]; [rewrite E|]; auto using andb_false_r.
Qed.

Lemma u8_land (x : Z) : u8 x = Z.land x (Z.ones 8).
Proof. unfold u8. rewrite Z.land_ones by lia. reflexivity. Qed.

Lemma u32_land (x : Z) : u32 x = Z.land x (Z.ones 32).
Proof. unfold u32. rewrite Z.land_ones by lia. reflexivity. Qed.

Lemma u8_lxor (x y : Z) : u8 (Z.lxor x y) = Z.lxor (u8 x) (u8 y).
Proof.
  rewrite !u8_land. bitwise.
  destruct (Z.testbit x j), (Z.testbit y j), (Z.testbit (Z.ones 8) j); reflexivity.
Qed.

Lemma u8_range (x : Z) : 0 <= u8 x < 256.
Proof. unfold u8. apply Z.mod_pos_bound. lia. Qed.

Lemma u16_range (x : Z) : 0 <= u16 x < 65536.
Proof. unfold u16. apply Z.mod_pos_bound. lia. Qed.

(** ** The long division of [checkCRC] is linear over GF(2) *)

Lemma crc_mask (i : Z) :
  0 <= i <= 23 -> u32 (Z.shiftl 1 (23 - i)) = 2 ^ (23 - i).
Proof.
  intros Hi. rewrite Z.shiftl_1_l. unfold u32. apply Z.mod_small.
  split; [apply Z.pow_nonneg; lia|].
  change 4294967296 with (2 ^ 32). apply Z.pow_lt_mono_r; lia.
Qed.

Lemma crc_step_lxor (a b d i : Z) :
  0 <= i <= 23 ->
  crc_step (Z.lxor a b, d) i =
  (Z.lxor (fst (crc_step (a, d) i)) (fst (crc_step (b, d) i)), Z.shiftr d 1).
Proof.
  intros Hi. unfold crc_step. rewrite crc_mask by exact Hi.
  rewrite !land_pow2_eqb by lia. rewrite Z.lxor_spec.
  destruct (Z.testbit a (23 - i)), (Z.testbit b (23 - i)); simpl; f_equal;
    bitwise;
    destruct (Z.testbit a j), (Z.testbit b j), (Z.testbit d j); reflexivity.
Qed.

Lemma crc_step_snd (r d i : Z) : snd (crc_step (r, d) i) = Z.shiftr d 1.
Proof. reflexivity. Qed.

Lemma crc_fold_lxor (l : list Z) :
  Forall (fun i => 0 <= i <= 23) l ->
  forall a b d,
  fold_left crc_step l (Z.lxor a b, d) =
  (Z.lxor (fst (fold_left crc_step l (a, d)))
          (fst (fold_left crc_step l (b, d))),
   snd (fold_left crc_step l (a, d))).
Proof.
  induction 1 as [|i l Hi Hl IH]; intros a b d.
  - reflexivity.
  - cbn [fold_left]. rewrite crc_step_lxor by exact Hi.
    rewrite IH.
    rewrite (surjective_pairing (crc_step (a, d) i)),
            (surjective_pairing (crc_step (b, d) i)), !crc_step_snd.
    reflexivity.
Qed.

Lemma crc_indices_range : Forall (fun i => 0 <= i <= 23) crc_indices.
Proof. unfold crc_indices. simpl. repeat constructor; lia. Qed.

Lemma checkCRC_unfold (v c : Z) :
  checkCRC v c =
  u8 (fst (fold_left crc_step crc_indices
             (Z.lor (u32 (Z.shiftl v 8)) c, SHIFTED_DIVISOR))).
Proof.
  unfold checkCRC.
  destruct (fold_left crc_step crc_indices _) as [r d]. reflexivity.
Qed.

Lemma dividend_lxor (v e c f : Z) :
  0 <= c < 256 -> 0 <= f < 256 ->
  Z.lor (u32 (Z.shiftl (Z.lxor v e) 8)) (Z.lxor c f) =
  Z.lxor (Z.lor (u32 (Z.shiftl v 8)) c) (Z.lor (u32 (Z.shiftl e 8)) f).
Proof.
  intros Hc Hf. rewrite !u32_land. bitwise.
  rewrite ?Z.shiftl_spec, ?Z.lxor_spec by lia.
  destruct (Z_lt_le_dec j 8) as [Hlo|Hhi].
  - rewrite !(Z.testbit_neg_r _ (j - 8)) by lia. reflexivity.
  - rewrite (testbit_small c 8 j), (testbit_small f 8 j) by lia.
    destruct (Z.testbit v (j - 8)), (Z.testbit e (j - 8)),
             (Z.testbit (Z.ones 32) j); reflexivity.
Qed.

Lemma checkCRC_lxor (v e c f : Z) :
  0 <= c < 256 -> 0 <= f < 256 ->
  checkCRC (Z.lxor v e) (Z.lxor c f) = Z.lxor (checkCRC v c) (checkCRC e f).
Proof.
  intros Hc Hf. rewrite !checkCRC_unfold, dividend_lxor by assumption.
  rewrite crc_fold_lxor by exact crc_indices_range.
  cbn [fst]. apply u8_lxor.
Qed.

(** With an all-zero message the division has nothing to subtract. *)
Lemma checkCRC_zero_message (c : Z) : 0 <= c < 256 -> checkCRC 0 c = c.
Proof.
  intros Hc. apply Z.eqb_eq.
  apply (all_bits_below 8 (fun c => checkCRC 0 c =? c)); [|exact Hc].
  vm_compute. reflexivity.
Qed.

(** The check value [checkCRC] accepts for a message is the remainder
    its own division leaves for the message padded with zeros. *)
Lemma checkCRC_accepts_iff (v c : Z) :
  0 <= c < 256 -> (checkCRC v c = 0 <-> c = checkCRC v 0).
Proof.
  intros Hc.
  assert (E : checkCRC v c = Z.lxor (checkCRC v 0) c).
  { rewrite <- (Z.lxor_0_r v) at 1. rewrite <- (Z.lxor_0_l c) at 1.
    rewrite checkCRC_lxor by lia.
    rewrite (checkCRC_zero_message c Hc). reflexivity. }
  rewrite E. rewrite Z.lxor_eq_0_iff. split; congruence.
Qed.

(** The sensor-side checksum is linear too, bit by bit. *)
Lemma crc8_bit_lxor (a b : Z) :
  crc8_bit (Z.lxor a b) = Z.lxor (crc8_bit a) (crc8_bit b).
Proof.
  unfold crc8_bit. rewrite Z.lxor_spec, Z.shiftl_lxor, u8_lxor.
  generalize (u8 (Z.shiftl a 1)) (u8 (Z.shiftl b 1)) (u8 305).
  intros A B K.
  destruct (Z.testbit a 7), (Z.testbit b 7); cbn [xorb];
    bitwise;
    destruct (Z.testbit A j), (Z.testbit B j), (Z.testbit K j); reflexivity.
Qed.

Lemma crc8_iter_lxor (n : nat) (a b : Z) :
  Nat.iter n crc8_bit (Z.lxor a b) =
  Z.lxor (Nat.iter n crc8_bit a) (Nat.iter n crc8_bit b).
Proof.
  induction n as [|n IH]; [reflexivity|].
  rewrite !Nat.iter_succ, IH. apply crc8_bit_lxor.
Qed.

Lemma split_bytes (v : Z) : v = Z.lxor (Z.shiftl (Z.shiftr v 8) 8) (u8 v).
Proof.
  rewrite u8_land. bitwise.
  destruct (Z_lt_le_dec j 8) as [Hlo|Hhi].
  - rewrite Z.shiftl_spec, (Z.testbit_neg_r _ (j - 8)) by lia.
    rewrite Z.testbit_ones_nonneg by lia.
    destruct (Z.ltb_spec j 8); [|lia]. simpl. rewrite andb_true_r. reflexivity.
  - rewrite Z.shiftl_spec, Z.shiftr_spec by lia.
    rewrite Z.testbit_ones_nonneg by lia.
    destruct (Z.ltb_spec j 8); [lia|]. rewrite andb_false_r, xorb_false_r.
    f_equal. lia.
Qed.

Lemma crc8_high_byte (h : Z) :
  0 <= h < 256 ->
  Nat.iter 8 crc8_bit (Nat.iter 8 crc8_bit h) = checkCRC (Z.shiftl h 8) 0.
Proof.
  intros Hh. apply Z.eqb_eq.
  apply (all_bits_below 8
           (fun h => Nat.iter 8 crc8_bit (Nat.iter 8 crc8_bit h)
                     =? checkCRC (Z.shiftl h 8) 0)); [|exact Hh].
  vm_compute. reflexivity.
Qed.

Lemma crc8_low_byte (l : Z) :
  0 <= l < 256 -> Nat.iter 8 crc8_bit l = checkCRC l 0.
Proof.
  intros Hl. apply Z.eqb_eq.
  apply (all_bits_below 8 (fun l => Nat.iter 8 crc8_bit l =? checkCRC l 0));
    [|exact Hl].
  vm_compute. reflexivity.
Qed.

(** The sensor-side checksum is the remainder of [checkCRC]'s division. *)
Lemma crc8_is_remainder (v : Z) : 0 <= v < 65536 -> crc8 v = checkCRC v 0.
Proof.
  intros Hv.
  assert (Hh : 0 <= Z.shiftr v 8 < 256).
  { rewrite Z.shiftr_div_pow2 by lia. change (2 ^ 8) with 256.
    split; [apply Z.div_pos; lia | apply Z.div_lt_upper_bound; lia]. }
  unfold crc8, crc8_byte. cbn [fold_left].
  rewrite Z.lxor_0_l, crc8_iter_lxor.
  rewrite crc8_high_byte by exact Hh.
  rewrite crc8_low_byte by apply u8_range.
  pose proof (checkCRC_lxor (Z.shiftl (Z.shiftr v 8) 8) (u8 v) 0 0
                ltac:(lia) ltac:(lia)) as E.
  change (Z.lxor 0 0) with 0 in E.
  rewrite <- E, <- split_bytes. reflexivity.
Qed.

Lemma checkCRC_range (v c : Z) : 0 <= checkCRC v c < 256.
Proof. rewrite checkCRC_unfold. apply u8_range. Qed.

Lemma checkCRC_message_bit (k : Z) :
  0 <= k < 16 -> checkCRC (2 ^ k) 0 <> 0.
Proof.
  intros Hk. apply Z.eqb_neq, negb_true_iff.
  apply (all_bits_below 4 (fun k => negb (checkCRC (2 ^ k) 0 =? 0))); [|exact Hk].
  vm_compute. reflexivity.
Qed.

(** ** The polling loop *)

(** A reply from which [requestFrom (_, 3)] gets 3 bytes. *)
Definition ready (reply : list Z) : Prop := length (firstn 3 reply) = 3%nat.

(** The byte count one more request obtains and the port after the
    delay and the request of one turn of the loop. *)
Definition got (w : TwoWire) : Z :=
  Z.of_nat (length (firstn 3 (hd [] (replies w)))).

Definition after_request (w : TwoWire) : TwoWire :=
  mkWire (tl (replies w)) (firstn 3 (hd [] (replies w)))
         (txAddress w) (txBuffer w) (sent w)
         (requests w + 1) (elapsed w + DELAY_INTERVAL).

(** The port once the command byte has been sent. *)
Definition triggered (hdr : Header) (cmd : Z) (w : TwoWire) : TwoWire :=
  mkWire (replies w) (rxBuffer w) (HTU21D_ADDRESS hdr) []
         (sent w ++ [(HTU21D_ADDRESS hdr, [u8 cmd])])
         (requests w) (elapsed w).

Lemma got_range (w : TwoWire) : 0 <= got w <= 3.
Proof.
  unfold got. pose proof (firstn_le_length 3 (hd [] (replies w))). lia.
Qed.

Lemma got_ready (w : TwoWire) : got w = 3 <-> ready (hd [] (replies w)).
Proof. unfold got, ready. lia. Qed.

Section PollFacts.

Variable hdr : Header.

Lemma poll_exit (fuel : nat) (counter toRead : Z) (w : TwoWire) :
  (counter <? MAX_COUNTER) && negb (toRead =? 3) = false ->
  poll hdr fuel counter toRead w = Some ((counter, toRead), w).
Proof.
  intros H. destruct fuel; cbn [poll]; rewrite H; reflexivity.
Qed.

Lemma poll_step (fuel : nat) (counter toRead : Z) (w : TwoWire) :
  0 <= counter < MAX_COUNTER -> toRead <> 3 ->
  poll hdr (S fuel) counter toRead w =
  poll hdr fuel (counter + 1) (got w) (after_request w).
Proof.
  intros Hc Ht. cbn [poll].
  replace ((counter <? MAX_COUNTER) && negb (toRead =? 3)) with true.
  2:{ symmetry. apply andb_true_iff. split.
      - apply Z.ltb_lt. lia.
      - apply negb_true_iff, Z.eqb_neq. exact Ht. }
  unfold bind, delay, requestFrom. cbn [replies rxBuffer txAddress txBuffer
    sent requests elapsed].
  change MAX_COUNTER with 10 in Hc.
  pose proof (got_range w) as Hg. unfold got in Hg.
  unfold u8. rewrite !Z.mod_small by lia. reflexivity.
Qed.

(** The loop is left after at most [MAX_COUNTER - counter] turns, each
    of one delay and one request; below the ceiling it is left only
    with 3 bytes read. *)
Lemma poll_total (fuel : nat) :
  forall counter toRead w,
  0 <= counter <= MAX_COUNTER ->
  (Z.to_nat (MAX_COUNTER - counter) <= fuel)%nat ->
  exists c t w',
    poll hdr fuel counter toRead w = Some ((c, t), w') /\
    counter <= c <= MAX_COUNTER /\
    requests w' = requests w + (c - counter) /\
    elapsed w' = elapsed w + DELAY_INTERVAL * (c - counter) /\
    sent w' = sent w /\
    (c < MAX_COUNTER -> t = 3).
Proof.
  induction fuel as [|fuel IH]; intros counter toRead w Hc Hf.
  - exists counter, toRead, w. rewrite poll_exit.
    + repeat split; try lia.
    + replace (counter <? MAX_COUNTER) with false; [reflexivity|].
      symmetry. apply Z.ltb_ge. lia.
  - destruct ((counter <? MAX_COUNTER) && negb (toRead =? 3)) eqn:E.
    + apply andb_true_iff in E. destruct E as [E1 E2].
      apply Z.ltb_lt in E1. apply negb_true_iff, Z.eqb_neq in E2.
      rewrite poll_step by lia.
      destruct (IH (counter + 1) (got w) (after_request w))
        as (c & t & w' & Hp & Hb & Hr & He & Hs & Ht); [lia | lia |].
      exists c, t, w'. cbn [after_request requests elapsed sent] in *.
      repeat split; try lia; assumption.
    + exists counter, toRead, w. rewrite poll_exit by exact E.
      repeat split; lia.
Qed.

(** Without a ready reply among those the remaining turns ask for, the
    loop runs into the ceiling. *)
Lemma poll_never_ready (fuel : nat) :
  forall counter toRead w,
  0 <= counter <= MAX_COUNTER -> toRead <> 3 ->
  (Z.to_nat (MAX_COUNTER - counter) <= fuel)%nat ->
  Forall (fun reply => ~ ready reply) (replies w) ->
  exists t w',
    poll hdr fuel counter toRead w = Some ((MAX_COUNTER, t), w').
Proof.
  induction fuel as [|fuel IH]; intros counter toRead w Hc Ht Hf Hn.
  - exists toRead, w. replace counter with MAX_COUNTER by lia.
    apply poll_exit. reflexivity.
  - destruct (Z.eq_dec counter MAX_COUNTER) as [->|Hne].
    + exists toRead, w. apply poll_exit. reflexivity.
    + rewrite poll_step by lia.
      apply IH; try lia.
      * rewrite got_ready. destruct (replies w) as [|r rs]; cbn [hd].
        -- unfold ready. simpl. lia.
        -- inversion Hn; assumption.
      * cbn [after_request replies].
        destruct (replies w) as [|r rs]; cbn [tl]; [constructor|].
        inversion Hn; assumption.
Qed.

Lemma read_total (w : TwoWire) :
  exists b w',
    read w = Some (b, w') /\
    requests w' = requests w /\ elapsed w' = elapsed w /\
    sent w' = sent w /\ replies w' = replies w.
Proof.
  unfold read. destruct (rxBuffer w) as [|b rest]; eauto 10.
Qed.

(** The three ways [readValue] ends. *)
Lemma fetch_cases (counter : Z) (w : TwoWire) :
  exists o r w',
    fetch counter w = Some ((o, r), w') /\
    requests w' = requests w /\ elapsed w' = elapsed w /\
    sent w' = sent w /\
    ((o = Timeout /\ r = ERROR_I2C_TIMEOUT /\ counter = MAX_COUNTER) \/
     (o = CrcMismatch /\ r = ERROR_BAD_CRC /\ counter <> MAX_COUNTER) \/
     (o = Measured /\ counter <> MAX_COUNTER /\
      exists rawValue, 0 <= rawValue < 65536 /\
                       r = Z.land rawValue 0xFFFC)).
Proof.
  unfold fetch. destruct (Z.eqb_spec counter MAX_COUNTER) as [E|E].
  - exists Timeout, ERROR_I2C_TIMEOUT, w. repeat split. left. auto.
  - unfold bind.
    destruct (read_total w) as (b1 & w1 & E1 & R1 & T1 & S1 & _).
    destruct (read_total w1) as (b2 & w2 & E2 & R2 & T2 & S2 & _).
    destruct (read_total w2) as (b3 & w3 & E3 & R3 & T3 & S3 & _).
    rewrite E1, E2, E3.
    set (rawValue := u16 (Z.lor (Z.shiftl (u16 (u8 b1)) 8) (u16 (u8 b2)))).
    destruct (negb (checkCRC rawValue (u8 b3) =? 0)).
    + exists CrcMismatch, ERROR_BAD_CRC, w3.
      repeat split; try congruence. right; left. auto.
    + exists Measured, (Z.land rawValue 65532), w3.
      repeat split; try congruence. right; right.
      repeat split; try assumption.
      exists rawValue. split; [apply u16_range | reflexivity].
Qed.

Lemma readValue_traced_unfold (fuel : nat) (cmd : Z) (w : TwoWire) :
  readValue_traced hdr fuel cmd w =
  match poll hdr fuel 0 0 (triggered hdr cmd w) with
  | Some (ct, w') => fetch (fst ct) w'
  | None => None
  end.
Proof. reflexivity. Qed.

Lemma readValue_unfold (fuel : nat) (cmd : Z) (w : TwoWire) :
  readValue hdr fuel cmd w =
  match readValue_traced hdr fuel cmd w with
  | Some (r, w') => Some (snd r, w')
  | None => None
  end.
Proof.
  unfold readValue, bind, ret.
  destruct (readValue_traced hdr fuel cmd w) as [[r w']|]; reflexivity.
Qed.

(** [readValue] returns, whatever the device does, after at most
    [MAX_COUNTER] requests and [MAX_WAIT] milliseconds of delay. *)
Lemma readValue_traced_total (fuel : nat) (cmd : Z) (w : TwoWire) :
  (Z.to_nat MAX_COUNTER <= fuel)%nat ->
  exists o r w',
    readValue_traced hdr fuel cmd w = Some ((o, r), w') /\
    0 <= requests w' - requests w <= MAX_COUNTER /\
    0 <= elapsed w' - elapsed w <= MAX_WAIT /\
    ((o = Timeout /\ r = ERROR_I2C_TIMEOUT /\
      requests w' - requests w = MAX_COUNTER) \/
     (o = CrcMismatch /\ r = ERROR_BAD_CRC) \/
     (o = Measured /\
      exists rawValue, 0 <= rawValue < 65536 /\
                       r = Z.land rawValue 0xFFFC)).
Proof.
  intros Hf. rewrite readValue_traced_unfold.
  destruct (poll_total fuel 0 0 (triggered hdr cmd w))
    as (c & t & w1 & Hp & Hb & Hr & He & _ & _);
    [change MAX_COUNTER with 10; lia | rewrite Z.sub_0_r; exact Hf |].
  rewrite Hp. cbn [fst].
  destruct (fetch_cases c w1) as (o & r & w' & Hfe & R & T & _ & Hcase).
  exists o, r, w'. cbn [triggered requests elapsed] in Hr, He.
  change MAX_COUNTER with 10 in *. change MAX_WAIT with 100.
  change DELAY_INTERVAL with 10 in He.
  repeat split; try lia; try assumption.
  destruct Hcase as [(-> & -> & ->)|[(-> & -> & _)|(-> & _ & Hraw)]].
  - left. repeat split. lia.
  - right; left. auto.
  - right; right. auto.
Qed.

End PollFacts.

(** ** What [readValue] returns *)

Lemma readValue_traced_cases (hdr : Header) (fuel : nat) (cmd : Z)
      (w w' : TwoWire) (o : Outcome) (r : Z) :
  readValue_traced hdr fuel cmd w = Some ((o, r), w') ->
  (o = Timeout /\ r = ERROR_I2C_TIMEOUT) \/
  (o = CrcMismatch /\ r = ERROR_BAD_CRC) \/
  (o = Measured /\
   exists rawValue, 0 <= rawValue < 65536 /\ r = Z.land rawValue 0xFFFC).
Proof.
  rewrite readValue_traced_unfold.
  destruct (poll hdr fuel 0 0 (triggered hdr cmd w)) as [[ct w1]|];
    [|discriminate].
  intros H.
  destruct (fetch_cases (fst ct) w1) as (o1 & r1 & w2 & Hf & _ & _ & _ & Hc).
  rewrite Hf in H. injection H as -> -> ->.
  destruct Hc as [(? & ? & _)|[(? & ? & _)|(? & _ & ?)]]; auto.
Qed.

Lemma masked_low_bits (rawValue : Z) : Z.land (Z.land rawValue 0xFFFC) 3 = 0.
Proof.
  rewrite <- Z.land_assoc. change (Z.land 65532 3) with 0. apply Z.land_0_r.
Qed.

Lemma masked_range (rawValue : Z) : 0 <= Z.land rawValue 0xFFFC < 65536.
Proof.
  assert (E : Z.land rawValue 65532 = Z.land rawValue 65532 mod 2 ^ 16).
  { rewrite <- Z.land_ones, <- Z.land_assoc by lia. reflexivity. }
  rewrite E. apply Z.mod_pos_bound. lia.
Qed.

Lemma land3_mod4 (r : Z) : Z.land r 3 = r mod 4.
Proof. change 3 with (Z.ones 2). rewrite Z.land_ones by lia. reflexivity. Qed.

(** The loop ends at the ceiling exactly when none of the requests
    before the last one it may make gets 3 bytes: what the last request
    gets does not matter. *)
Lemma poll_ceiling_iff (hdr : Header) (fuel : nat) :
  forall counter toRead w c t w',
  0 <= counter <= MAX_COUNTER -> toRead <> 3 ->
  poll hdr fuel counter toRead w = Some ((c, t), w') ->
  (c = MAX_COUNTER <->
   Forall (fun reply => ~ ready reply)
          (firstn (Z.to_nat (MAX_COUNTER - 1 - counter)) (replies w))).
Proof.
  change MAX_COUNTER with 10.
  assert (Hexit : forall f counter toRead w c t w',
            counter = 10 ->
            poll hdr f counter toRead w = Some ((c, t), w') ->
            (c = 10 <->
             Forall (fun reply => ~ ready reply)
                    (firstn (Z.to_nat (10 - 1 - counter)) (replies w)))).
  { intros f counter toRead w c t w' -> Hp.
    rewrite poll_exit in Hp by reflexivity. injection Hp as <- _ _.
    cbn [Z.sub Z.add Z.opp Z.pos_sub Z.to_nat firstn].
    split; [constructor | reflexivity]. }
  induction fuel as [|fuel IH]; intros counter toRead w c t w' Hc Ht Hp.
  - destruct (Z.eq_dec counter 10) as [E|E]; [eapply Hexit; eassumption|].
    cbn [poll] in Hp.
    replace ((counter <? MAX_COUNTER) && negb (toRead =? 3)) with true in Hp;
      [discriminate|].
    change MAX_COUNTER with 10. lia.
  - destruct (Z.eq_dec counter 10) as [E|E]; [eapply Hexit; eassumption|].
    rewrite poll_step in Hp by (change MAX_COUNTER with 10; lia).
    destruct (Z.eq_dec counter 9) as [->|E9].
    { assert (Hc10 : c = 10)
        by (apply (Hexit _ _ _ _ _ _ _ eq_refl Hp); constructor).
      split; [constructor | intros _; exact Hc10]. }
    replace (Z.to_nat (10 - 1 - counter))
      with (S (Z.to_nat (10 - 1 - (counter + 1)))) by lia.
    destruct (Z.eq_dec (got w) 3) as [Hg|Hg].
    + rewrite Hg, poll_exit in Hp
        by (rewrite Z.eqb_refl; apply andb_false_r).
      injection Hp as <- _ _.
      apply got_ready in Hg.
      destruct (replies w) as [|reply rest]; cbn [hd] in Hg.
      * unfold ready in Hg. simpl in Hg. discriminate.
      * cbn [firstn]. split; [lia|].
        intros Hall. inversion Hall; contradiction.
    + rewrite (IH (counter + 1) (got w) (after_request w) c t w'
                  ltac:(lia) Hg Hp).
      rewrite got_ready in Hg. cbn [after_request replies].
      destruct (replies w) as [|reply rest]; cbn [hd tl firstn] in *.
      * rewrite firstn_nil. split; constructor.
      * split; intros Hall.
        -- constructor; assumption.
        -- inversion Hall; assumption.
Qed.

(** X6: [readValue] reports a timeout exactly when none of its first
    [MAX_COUNTER - 1] = 9 requests gets 3 bytes; what the tenth request
    gets plays no part. *)
Lemma readValue_timeout_iff (hdr : Header) (fuel : nat) (cmd : Z)
      (w w' : TwoWire) (o : Outcome) (r : Z) :
  readValue_traced hdr fuel cmd w = Some ((o, r), w') ->
  (o = Timeout <->
   Forall (fun reply => ~ ready reply)
          (firstn (Z.to_nat (MAX_COUNTER - 1)) (replies w))).
Proof.
  rewrite readValue_traced_unfold.
  destruct (poll hdr fuel 0 0 (triggered hdr cmd w)) as [[[c t] w1]|] eqn:Hp;
    [|discriminate].
  cbn [fst]. intros H.
  pose proof (poll_ceiling_iff hdr fuel 0 0 _ _ _ _
                ltac:(change MAX_COUNTER with 10; lia) ltac:(lia) Hp) as Hiff.
  rewrite Z.sub_0_r in Hiff. cbn [triggered replies] in Hiff.
  rewrite <- Hiff.
  destruct (fetch_cases c w1) as (o1 & r1 & w2 & Hf & _ & _ & _ & Hcase).
  rewrite Hf in H. injection H as -> -> ->.
  destruct Hcase as [(-> & _ & ->)|[(-> & _ & Hne)|(-> & Hne & _)]];
    split; intros; try discriminate; try contradiction; reflexivity.
Qed.

(** ** The user register *)

Ltac eval_const_bits :=
  change (Z.ones 8) with 255;
  repeat match goal with
  | |- context [Z.testbit (Zpos ?p) (Zpos ?k)] =>
      let v := eval vm_compute in (Z.testbit (Zpos p) (Zpos k)) in
      change (Z.testbit (Zpos p) (Zpos k)) with v
  | |- context [Z.testbit (Zpos ?p) 0] =>
      let v := eval vm_compute in (Z.testbit (Zpos p) 0) in
      change (Z.testbit (Zpos p) 0) with v
  end.

Lemma u8_testbit (x i : Z) :
  0 <= i -> Z.testbit (u8 x) i = Z.testbit x i && (i <? 8).
Proof.
  intros Hi. rewrite u8_land, Z.land_spec, Z.testbit_ones_nonneg by lia.
  reflexivity.
Qed.

(** Bit [i] of the byte [setResolution] writes back, from the register
    value it read and its argument. *)
Lemma resolution_bits (userRegister resolution i : Z) :
  0 <= i ->
  Z.testbit
    (u8 (Z.lor (Z.land userRegister B01111110)
               (Z.land (u8 resolution) B10000001))) i =
  if (i =? 7) || (i =? 0) then Z.testbit resolution i
  else Z.testbit userRegister i && (i <? 8).
Proof.
  intros Hi. unfold B01111110, B10000001.
  rewrite u8_testbit, Z.lor_spec, !Z.land_spec, u8_testbit by lia.
  destruct (Z.ltb_spec i 8) as [Hlt|Hge].
  - assert (Hcases : i = 0 \/ i = 1 \/ i = 2 \/ i = 3 \/ i = 4 \/ i = 5 \/
                     i = 6 \/ i = 7) by lia.
    destruct Hcases as [->|[->|[->|[->|[->|[->|[->| ->]]]]]]];
      eval_const_bits; cbn [Z.eqb Pos.eqb orb];
      rewrite ?andb_true_r, ?andb_false_r, ?orb_false_r, ?orb_false_l;
      reflexivity.
  - rewrite !andb_false_r.
    destruct (Z.eqb_spec i 7); [lia|]. destruct (Z.eqb_spec i 0); [lia|].
    reflexivity.
Qed.

Lemma readUserRegister_total (hdr : Header) (w : TwoWire) :
  exists b w1, readUserRegister hdr w = Some (u8 b, w1).
Proof.
  unfold readUserRegister, bind, beginTransmission, write, endTransmission,
    requestFrom, ret.
  match goal with
  | |- context [read ?x] => destruct (read_total x) as (b & w1 & E & _)
  end.
  rewrite E. eauto.
Qed.

(** ** The unit conversions *)

(** The checks made of each 16-bit raw value: the result is a finite
    number, equal to the real-number formula (humidity) or within
    [2^-16] of it (temperature), and inside the nominal range. *)
Definition humidity_check (raw : Z) : bool :=
  let f := humidity raw in
  let q := SF2Q f in
  is_finite f
  && Qeq_bool q (inject_Z raw * (125 # 65536) - 6)
  && Qle_bool (-6) q && Qle_bool q 119.

Definition celsius_check (raw : Z) : bool :=
  let f := celsius raw in
  let q := SF2Q f in
  is_finite f
  && Qle_bool (Qabs (q - (inject_Z raw * (17572 # 6553600) - (4685 # 100))))
              (1 # 65536)
  && Qle_bool (-4685 # 100) q && Qle_bool q (12887 # 100).

Lemma humidity_checked : all_bits 16 0 humidity_check = true.
Proof. vm_cast_no_check (eq_refl true). Qed.

Lemma celsius_checked : all_bits 16 0 celsius_check = true.
Proof. vm_cast_no_check (eq_refl true). Qed.

Lemma humidity_facts (raw : Z) :
  0 <= raw < 65536 ->
  is_finite (humidity raw) = true /\
  (SF2Q (humidity raw) == inject_Z raw * (125 # 65536) - 6)%Q /\
  (-6 <= SF2Q (humidity raw))%Q /\ (SF2Q (humidity raw) <= 119)%Q.
Proof.
  intros Hr.
  pose proof (all_bits_below 16 humidity_check humidity_checked raw Hr) as H.
  unfold humidity_check in H.
  apply andb_prop in H. destruct H as [H H4].
  apply andb_prop in H. destruct H as [H H3].
  apply andb_prop in H. destruct H as [H1 H2].
  repeat split; auto using Qeq_bool_eq, Qle_bool_imp_le.
Qed.

Lemma celsius_facts (raw : Z) :
  0 <= raw < 65536 ->
  is_finite (celsius raw) = true /\
  (Qabs (SF2Q (celsius raw)
         - (inject_Z raw * (17572 # 6553600) - (4685 # 100)))
   <= 1 # 65536)%Q /\
  (-4685 # 100 <= SF2Q (celsius raw))%Q /\
  (SF2Q (celsius raw) <= 12887 # 100)%Q.
Proof.
  intros Hr.
  pose proof (all_bits_below 16 celsius_check celsius_checked raw Hr) as H.
  unfold celsius_check in H.
  apply andb_prop in H. destruct H as [H H4].
  apply andb_prop in H. destruct H as [H H3].
  apply andb_prop in H. destruct H as [H1 H2].
  repeat split; auto using Qle_bool_imp_le.
Qed.

(** The [float] a caller receives, by the exit [readValue] took. *)
Definition reading (convert : Z -> spec_float) (o : Outcome) (r : Z)
  : spec_float :=
  match o with
  | Measured => convert r
  | _ => float_of_int r
  end.

Lemma sentinel_test (hdr : Header) (fuel : nat) (cmd : Z) (w w' : TwoWire)
      (o : Outcome) (r : Z) :
  readValue_traced hdr fuel cmd w = Some ((o, r), w') ->
  (r =? ERROR_I2C_TIMEOUT) || (r =? ERROR_BAD_CRC) =
  match o with Measured => false | _ => true end.
Proof.
  intros H.
  destruct (readValue_traced_cases _ _ _ _ _ _ _ H)
    as [(-> & ->)|[(-> & ->)|(-> & raw & _ & ->)]]; try reflexivity.
  pose proof (masked_low_bits raw) as Hm. rewrite land3_mod4 in Hm.
  apply orb_false_iff.
  split; apply Z.eqb_neq; intros E; rewrite E in Hm; discriminate Hm.
Qed.

Lemma readHumidity_reading (hdr : Header) (fuel : nat) (w w' : TwoWire)
      (o : Outcome) (r : Z) :
  readValue_traced hdr fuel (TRIGGER_HUMD_MEASURE_NOHOLD hdr) w
    = Some ((o, r), w') ->
  readHumidity hdr fuel w = Some (reading humidity o r, w').
Proof.
  intros H. unfold readHumidity, bind. rewrite readValue_unfold, H.
  cbn [snd]. rewrite (sentinel_test _ _ _ _ _ _ _ H).
  destruct o; reflexivity.
Qed.

Lemma readTemperature_reading (hdr : Header) (fuel : nat) (w w' : TwoWire)
      (o : Outcome) (r : Z) :
  readValue_traced hdr fuel (TRIGGER_TEMP_MEASURE_NOHOLD hdr) w
    = Some ((o, r), w') ->
  readTemperature hdr fuel w = Some (reading celsius o r, w').
Proof.
  intros H. unfold readTemperature, bind. rewrite readValue_unfold, H.
  cbn [snd]. rewrite (sentinel_test _ _ _ _ _ _ _ H).
  destruct o; reflexivity.
Qed.

(** * The claims *)

(** C4: [checkCRC] accepts the three test vectors of the data sheet:
    [0x00DC] with check value [0x79], [0x683A] with [0x7C] and [0x4E85]
    with [0x6B] all give 0. *)
Theorem checkCRC_datasheet_vectors :
  checkCRC 0x00DC 0x79 = 0 /\
  checkCRC 0x683A 0x7C = 0 /\
  checkCRC 0x4E85 0x6B = 0.
Proof. repeat split; vm_compute; reflexivity. Qed.

(** C5: for every 16-bit value, [checkCRC] accepts the value together
    with its forward CRC-8 (polynomial [0x0131]), and rejects the pair
    once any single bit of the value or any single bit of the checksum
    is flipped. *)
Theorem checkCRC_single_bit_detection (value : Z) :
  0 <= value < 65536 ->
  checkCRC value (crc8 value) = 0 /\
  (forall k, 0 <= k < 16 ->
     checkCRC (Z.lxor value (2 ^ k)) (crc8 value) <> 0) /\
  (forall k, 0 <= k < 8 ->
     checkCRC value (Z.lxor (crc8 value) (2 ^ k)) <> 0).
Proof.
  intros Hv. rewrite (crc8_is_remainder value Hv).
  pose proof (checkCRC_range value 0) as Hc.
  assert (Hok : checkCRC value (checkCRC value 0) = 0)
    by (apply checkCRC_accepts_iff; [exact Hc | reflexivity]).
  split; [exact Hok|]. split; intros k Hk.
  - rewrite <- (Z.lxor_0_r (checkCRC value 0)).
    rewrite checkCRC_lxor by lia.
    rewrite Hok, Z.lxor_0_l.
    apply checkCRC_message_bit. exact Hk.
  - assert (Hp : 0 <= 2 ^ k < 256).
    { split; [apply Z.pow_nonneg; lia|].
      change 256 with (2 ^ 8). apply Z.pow_lt_mono_r; lia. }
    rewrite <- (Z.lxor_0_r value) at 1.
    rewrite checkCRC_lxor by lia.
    rewrite Hok, Z.lxor_0_l, checkCRC_zero_message by exact Hp.
    lia.
Qed.

Lemma checkCRC_single_bit_detection_witness :
  checkCRC 0x4E85 (crc8 0x4E85) = 0 /\
  (forall k, 0 <= k < 16 ->
     checkCRC (Z.lxor 0x4E85 (2 ^ k)) (crc8 0x4E85) <> 0) /\
  (forall k, 0 <= k < 8 ->
     checkCRC 0x4E85 (Z.lxor (crc8 0x4E85) (2 ^ k)) <> 0).
Proof. apply (checkCRC_single_bit_detection 0x4E85). lia. Defined.

(** C3, as the code has it: [setResolution] reads the user register
    and writes it back with bits 7 and 0 taken from its argument and
    every other bit as it was read. *)
Theorem setResolution_frame (hdr : Header) (resolution : Z) (w : TwoWire) :
  exists reg w1 new w',
    readUserRegister hdr w = Some (reg, w1) /\
    setResolution hdr resolution w = Some (tt, w') /\
    sent w' =
      sent w1 ++ [(HTU21D_ADDRESS hdr, [u8 (WRITE_USER_REG hdr); new])] /\
    0 <= reg < 256 /\ 0 <= new < 256 /\
    (forall i, i <> 7 -> i <> 0 -> Z.testbit new i = Z.testbit reg i) /\
    Z.testbit new 7 = Z.testbit resolution 7 /\
    Z.testbit new 0 = Z.testbit resolution 0.
Proof.
  destruct (readUserRegister_total hdr w) as (b & w1 & E).
  exists (u8 b), w1,
    (u8 (Z.lor (Z.land (u8 b) B01111110) (Z.land (u8 resolution) B10000001))).
  eexists. split; [exact E|]. split.
  { unfold setResolution, bind. rewrite E.
    unfold writeUserRegister, bind, beginTransmission, write, endTransmission.
    cbn [replies rxBuffer txAddress txBuffer sent requests elapsed app].
    reflexivity. }
  cbn [sent]. split; [reflexivity|].
  split; [apply u8_range|]. split; [apply u8_range|].
  split; [|split].
  - intros i H7 H0. destruct (Z_lt_le_dec i 0) as [Hneg|Hpos].
    + rewrite !Z.testbit_neg_r by lia. reflexivity.
    + rewrite resolution_bits by lia.
      destruct (Z.eqb_spec i 7); [lia|]. destruct (Z.eqb_spec i 0); [lia|].
      cbn [orb]. rewrite u8_testbit by lia.
      destruct (Z.testbit b i), (i <? 8); reflexivity.
  - rewrite resolution_bits by lia. reflexivity.
  - rewrite resolution_bits by lia. reflexivity.
Qed.

(** C3 as stated fails: with the register at [0x01] and argument
    [0x00], [setResolution] writes [0x00] back, so bit 0, which is
    neither bit 7 nor bit 1, has changed. *)
Lemma setResolution_changes_bit0 :
  exists w1 w',
    readUserRegister datasheet (fresh [[0x01]]) = Some (0x01, w1) /\
    setResolution datasheet 0x00 (fresh [[0x01]]) = Some (tt, w') /\
    sent w' = [(0x40, [0xE7]); (0x40, [0xE6; 0x00])] /\
    0 <> 7 /\ 0 <> 1 /\
    Z.testbit 0x00 0 <> Z.testbit 0x01 0.
Proof.
  do 2 eexists. split; [vm_compute; reflexivity|].
  split; [vm_compute; reflexivity|].
  split; [reflexivity|].
  repeat split; try lia. vm_compute. discriminate.
Qed.

(** C6: when [readValue] ends with a measurement (neither the timeout
    nor the CRC exit), the value it returns has its two least
    significant bits clear, whatever bytes the sensor delivered. *)
Theorem readValue_clears_status_bits (hdr : Header) (fuel : nat) (cmd : Z)
        (w w' : TwoWire) (r : Z) :
  readValue_traced hdr fuel cmd w = Some ((Measured, r), w') ->
  readValue hdr fuel cmd w = Some (r, w') /\
  Z.land r 3 = 0 /\
  Z.testbit r 0 = false /\ Z.testbit r 1 = false.
Proof.
  intros H. split; [rewrite readValue_unfold, H; reflexivity|].
  destruct (readValue_traced_cases _ _ _ _ _ _ _ H)
    as [(D & _)|[(D & _)|(_ & raw & _ & ->)]]; try discriminate.
  split; [apply masked_low_bits|].
  rewrite !Z.land_spec. split; rewrite andb_false_r; reflexivity.
Qed.

Lemma readValue_clears_status_bits_witness :
  exists w',
    readValue datasheet 10 0xF5 (fresh [[0x4E; 0x85; 0x6B]])
      = Some (0x4E84, w') /\
    Z.land 0x4E84 3 = 0 /\
    Z.testbit 0x4E84 0 = false /\ Z.testbit 0x4E84 1 = false.
Proof.
  eexists.
  apply (readValue_clears_status_bits datasheet 10 0xF5
           (fresh [[0x4E; 0x85; 0x6B]])).
  vm_compute. reflexivity.
Defined.

(** C9: [readValue] returns whatever the device does: its loop makes at
    most [MAX_COUNTER] = 100 / 10 = 10 requests, [MAX_WAIT] milliseconds
    of delay in all, and when no reply ever has 3 bytes the result is
    the timeout code, after exactly 10 requests. *)
Theorem readValue_terminates (hdr : Header) (fuel : nat) (cmd : Z)
        (w : TwoWire) :
  (Z.to_nat MAX_COUNTER <= fuel)%nat ->
  MAX_COUNTER = 10 /\
  exists o r w',
    readValue_traced hdr fuel cmd w = Some ((o, r), w') /\
    readValue hdr fuel cmd w = Some (r, w') /\
    0 <= requests w' - requests w <= MAX_COUNTER /\
    0 <= elapsed w' - elapsed w <= MAX_WAIT /\
    (Forall (fun reply => ~ ready reply) (replies w) ->
     o = Timeout /\ r = ERROR_I2C_TIMEOUT /\
     requests w' - requests w = MAX_COUNTER).
Proof.
  intros Hf. split; [reflexivity|].
  destruct (readValue_traced_total hdr fuel cmd w Hf)
    as (o & r & w' & E & Hr & He & Hcase).
  exists o, r, w'. split; [exact E|].
  split; [rewrite readValue_unfold, E; reflexivity|].
  split; [exact Hr|]. split; [exact He|].
  intros Hn.
  destruct (poll_never_ready hdr fuel 0 0 (triggered hdr cmd w))
    as (t & w1 & Hp);
    [change MAX_COUNTER with 10; lia | lia
    | rewrite Z.sub_0_r; exact Hf | exact Hn |].
  rewrite readValue_traced_unfold, Hp in E. cbn [fst] in E.
  unfold fetch in E. rewrite Z.eqb_refl in E. injection E as <- <- <-.
  destruct Hcase as [(_ & _ & Hq)|[(D & _)|(D & _)]];
    try discriminate.
  auto.
Qed.

Lemma readValue_terminates_witness :
  MAX_COUNTER = 10 /\
  exists o r w',
    readValue_traced datasheet 10 0xF5 (fresh []) = Some ((o, r), w') /\
    readValue datasheet 10 0xF5 (fresh []) = Some (r, w') /\
    0 <= requests w' - requests (fresh []) <= MAX_COUNTER /\
    0 <= elapsed w' - elapsed (fresh []) <= MAX_WAIT /\
    (Forall (fun reply => ~ ready reply) (replies (fresh [])) ->
     o = Timeout /\ r = ERROR_I2C_TIMEOUT /\
     requests w' - requests (fresh []) = MAX_COUNTER).
Proof.
  apply (readValue_terminates datasheet 10 0xF5 (fresh [])).
  vm_compute. apply le_n.
Defined.

(** C10: the [uint16_t] returned by [readValue] tells its three exits
    apart: a measurement is a multiple of 4, the codes 998 and 999 are
    2 and 3 modulo 4, so a measurement is never one of the codes, and
    the test [raw == ERROR_I2C_TIMEOUT || raw == ERROR_BAD_CRC] of
    [readHumidity] and [readTemperature] holds exactly when [readValue]
    did not end with a measurement: after a measurement [readHumidity]
    returns its conversion [humidity r] and [readTemperature] returns
    [celsius r], never the code path's value, and after a failure they
    return the code [r] as a [float]. *)
Theorem sentinel_encoding_unambiguous (hdr : Header) (fuel : nat) (cmd : Z)
        (w w' : TwoWire) (o : Outcome) (r : Z) :
  readValue_traced hdr fuel cmd w = Some ((o, r), w') ->
  ERROR_I2C_TIMEOUT mod 4 = 2 /\ ERROR_BAD_CRC mod 4 = 3 /\
  (o = Timeout -> r = ERROR_I2C_TIMEOUT) /\
  (o = CrcMismatch -> r = ERROR_BAD_CRC) /\
  (o = Measured ->
     r mod 4 = 0 /\ r <> ERROR_I2C_TIMEOUT /\ r <> ERROR_BAD_CRC) /\
  ((r =? ERROR_I2C_TIMEOUT) || (r =? ERROR_BAD_CRC) = true <-> o <> Measured) /\
  (cmd = TRIGGER_HUMD_MEASURE_NOHOLD hdr ->
   readHumidity hdr fuel w =
   Some (match o with
         | Measured => humidity r
         | Timeout | CrcMismatch => float_of_int r
         end, w')) /\
  (cmd = TRIGGER_TEMP_MEASURE_NOHOLD hdr ->
   readTemperature hdr fuel w =
   Some (match o with
         | Measured => celsius r
         | Timeout | CrcMismatch => float_of_int r
         end, w')).
Proof.
  intros H. split; [reflexivity|]. split; [reflexivity|].
  assert (Hreadings :
    (cmd = TRIGGER_HUMD_MEASURE_NOHOLD hdr ->
     readHumidity hdr fuel w =
     Some (match o with
           | Measured => humidity r
           | Timeout | CrcMismatch => float_of_int r
           end, w')) /\
    (cmd = TRIGGER_TEMP_MEASURE_NOHOLD hdr ->
     readTemperature hdr fuel w =
     Some (match o with
           | Measured => celsius r
           | Timeout | CrcMismatch => float_of_int r
           end, w'))).
  { split; intros ->.
    - rewrite (readHumidity_reading _ _ _ _ _ _ H). destruct o; reflexivity.
    - rewrite (readTemperature_reading _ _ _ _ _ _ H). destruct o; reflexivity. }
  revert Hreadings.
  destruct (readValue_traced_cases _ _ _ _ _ _ _ H)
    as [(-> & ->)|[(-> & ->)|(-> & raw & _ & ->)]]; intros [Hhum Htemp].
  - repeat split; try discriminate; auto.
  - repeat split; try discriminate; auto.
  - pose proof (masked_low_bits raw) as Hm. rewrite land3_mod4 in Hm.
    assert (H1 : Z.land raw 65532 <> ERROR_I2C_TIMEOUT)
      by (intros E; rewrite E in Hm; discriminate Hm).
    assert (H2 : Z.land raw 65532 <> ERROR_BAD_CRC)
      by (intros E; rewrite E in Hm; discriminate Hm).
    repeat split; try discriminate; auto.
    intros Ht. apply orb_true_iff in Ht.
    destruct Ht as [Ht|Ht]; apply Z.eqb_eq in Ht; contradiction.
Qed.

Lemma sentinel_encoding_unambiguous_witness :
  (ERROR_I2C_TIMEOUT mod 4 = 2 /\ ERROR_BAD_CRC mod 4 = 3 /\
   (Measured = Timeout -> 0x4E84 = ERROR_I2C_TIMEOUT) /\
   (Measured = CrcMismatch -> 0x4E84 = ERROR_BAD_CRC) /\
   (Measured = Measured ->
      0x4E84 mod 4 = 0 /\ 0x4E84 <> ERROR_I2C_TIMEOUT /\
      0x4E84 <> ERROR_BAD_CRC) /\
   ((0x4E84 =? ERROR_I2C_TIMEOUT) || (0x4E84 =? ERROR_BAD_CRC) = true
    <-> Measured <> Measured) /\
   (0xF5 = TRIGGER_HUMD_MEASURE_NOHOLD datasheet ->
    readHumidity datasheet 10 (fresh [[0x4E; 0x85; 0x6B]]) =
    Some (humidity 0x4E84, mkWire [] [] 0x40 [] [(0x40, [0xF5])] 1 10)) /\
   (0xF5 = TRIGGER_TEMP_MEASURE_NOHOLD datasheet ->
    readTemperature datasheet 10 (fresh [[0x4E; 0x85; 0x6B]]) =
    Some (celsius 0x4E84, mkWire [] [] 0x40 [] [(0x40, [0xF5])] 1 10))) /\
  (ERROR_I2C_TIMEOUT mod 4 = 2 /\ ERROR_BAD_CRC mod 4 = 3 /\
   (CrcMismatch = Timeout -> ERROR_BAD_CRC = ERROR_I2C_TIMEOUT) /\
   (CrcMismatch = CrcMismatch -> ERROR_BAD_CRC = ERROR_BAD_CRC) /\
   (CrcMismatch = Measured ->
      ERROR_BAD_CRC mod 4 = 0 /\ ERROR_BAD_CRC <> ERROR_I2C_TIMEOUT /\
      ERROR_BAD_CRC <> ERROR_BAD_CRC) /\
   ((ERROR_BAD_CRC =? ERROR_I2C_TIMEOUT) || (ERROR_BAD_CRC =? ERROR_BAD_CRC)
    = true <-> CrcMismatch <> Measured) /\
   (0xF3 = TRIGGER_HUMD_MEASURE_NOHOLD datasheet ->
    readHumidity datasheet 10 (fresh [[0x4E; 0x85; 0x6A]]) =
    Some (float_of_int ERROR_BAD_CRC,
          mkWire [] [] 0x40 [] [(0x40, [0xF3])] 1 10)) /\
   (0xF3 = TRIGGER_TEMP_MEASURE_NOHOLD datasheet ->
    readTemperature datasheet 10 (fresh [[0x4E; 0x85; 0x6A]]) =
    Some (float_of_int ERROR_BAD_CRC,
          mkWire [] [] 0x40 [] [(0x40, [0xF3])] 1 10))) /\
  (ERROR_I2C_TIMEOUT mod 4 = 2 /\ ERROR_BAD_CRC mod 4 = 3 /\
   (Measured = Timeout -> 0x6838 = ERROR_I2C_TIMEOUT) /\
   (Measured = CrcMismatch -> 0x6838 = ERROR_BAD_CRC) /\
   (Measured = Measured ->
      0x6838 mod 4 = 0 /\ 0x6838 <> ERROR_I2C_TIMEOUT /\
      0x6838 <> ERROR_BAD_CRC) /\
   ((0x6838 =? ERROR_I2C_TIMEOUT) || (0x6838 =? ERROR_BAD_CRC) = true
    <-> Measured <> Measured) /\
   (0xF3 = TRIGGER_HUMD_MEASURE_NOHOLD datasheet ->
    readHumidity datasheet 10 (fresh [[0x68; 0x3A; 0x7C]]) =
    Some (humidity 0x6838, mkWire [] [] 0x40 [] [(0x40, [0xF3])] 1 10)) /\
   (0xF3 = TRIGGER_TEMP_MEASURE_NOHOLD datasheet ->
    readTemperature datasheet 10 (fresh [[0x68; 0x3A; 0x7C]]) =
    Some (celsius 0x6838, mkWire [] [] 0x40 [] [(0x40, [0xF3])] 1 10))).
Proof.
  split; [|split].
  - apply (sentinel_encoding_unambiguous datasheet 10 0xF5
             (fresh [[0x4E; 0x85; 0x6B]])
             (mkWire [] [] 0x40 [] [(0x40, [0xF5])] 1 10) Measured 0x4E84).
    vm_compute. reflexivity.
  - apply (sentinel_encoding_unambiguous datasheet 10 0xF3
             (fresh [[0x4E; 0x85; 0x6A]])
             (mkWire [] [] 0x40 [] [(0x40, [0xF3])] 1 10)
             CrcMismatch ERROR_BAD_CRC).
    vm_compute. reflexivity.
  - apply (sentinel_encoding_unambiguous datasheet 10 0xF3
             (fresh [[0x68; 0x3A; 0x7C]])
             (mkWire [] [] 0x40 [] [(0x40, [0xF3])] 1 10) Measured 0x6838).
    vm_compute. reflexivity.
Defined.

(** C1, at the input where the code departs from it: nine requests
    that get nothing and a tenth that gets the three bytes of a valid
    measurement.  The tenth request is made and its 3 bytes are in the
    receive buffer, but [readValue] returns the timeout code. *)
Theorem readValue_timeout_on_final_attempt :
  ready [0x4E; 0x85; 0x6B] /\ checkCRC 0x4E85 0x6B = 0 /\
  exists w',
    readValue_traced datasheet 10 0xF5
      (fresh (repeat [] 9 ++ [[0x4E; 0x85; 0x6B]]))
      = Some ((Timeout, ERROR_I2C_TIMEOUT), w') /\
    requests w' = MAX_COUNTER /\
    rxBuffer w' = [0x4E; 0x85; 0x6B].
Proof.
  split; [reflexivity|]. split; [vm_compute; reflexivity|].
  eexists. split; [vm_compute; reflexivity|].
  split; reflexivity.
Qed.

(** ** Telling failures from readings *)

(** How a caller decodes the [float] that [readHumidity] or
    [readTemperature] returned. *)
Definition kind_of_reading (f : spec_float) : Outcome :=
  if Qeq_bool (SF2Q f) (inject_Z ERROR_I2C_TIMEOUT) then Timeout
  else if Qeq_bool (SF2Q f) (inject_Z ERROR_BAD_CRC) then CrcMismatch
  else Measured.

(** The returned [f] is a finite number that decodes to the exit [o]
    taken: the code's number on a failure, which no conversion of a
    16-bit raw value produces, and a value between [lo] and [hi] on a
    measurement. *)
Definition told_apart (convert : Z -> spec_float) (lo hi : Q)
           (o : Outcome) (f : spec_float) : Prop :=
  is_finite f = true /\
  kind_of_reading f = o /\
  match o with
  | Timeout => (SF2Q f == 998)%Q
  | CrcMismatch => (SF2Q f == 999)%Q
  | Measured => (lo <= SF2Q f <= hi)%Q
  end /\
  (o <> Measured ->
   forall raw, 0 <= raw < 65536 -> ~ (SF2Q f == SF2Q (convert raw))%Q).

Lemma Qeq_bool_below (q b : Q) : (q < b)%Q -> Qeq_bool q b = false.
Proof.
  intros H. destruct (Qeq_bool q b) eqn:E; [|reflexivity].
  apply Qeq_bool_eq in E. lra.
Qed.

Lemma timeout_float : (SF2Q (float_of_int ERROR_I2C_TIMEOUT) == 998)%Q.
Proof. apply Qeq_bool_eq. vm_compute. reflexivity. Qed.

Lemma bad_crc_float : (SF2Q (float_of_int ERROR_BAD_CRC) == 999)%Q.
Proof. apply Qeq_bool_eq. vm_compute. reflexivity. Qed.

Lemma reading_told_apart (convert : Z -> spec_float) (lo hi : Q) :
  (forall raw, 0 <= raw < 65536 ->
     is_finite (convert raw) = true /\
     (lo <= SF2Q (convert raw) <= hi)%Q) ->
  (hi < 998)%Q ->
  forall o r,
    (o = Timeout /\ r = ERROR_I2C_TIMEOUT) \/
    (o = CrcMismatch /\ r = ERROR_BAD_CRC) \/
    (o = Measured /\
     exists rawValue, 0 <= rawValue < 65536 /\ r = Z.land rawValue 0xFFFC) ->
    told_apart convert lo hi o (reading convert o r).
Proof.
  intros Hconv Hhi o r [(-> & ->)|[(-> & ->)|(-> & raw & _ & ->)]];
    unfold told_apart; cbn [reading].
  - split; [reflexivity|]. split; [vm_compute; reflexivity|].
    split; [exact timeout_float|].
    intros _ raw Hr E. destruct (Hconv raw Hr) as (_ & _ & Hle).
    pose proof timeout_float. lra.
  - split; [reflexivity|]. split; [vm_compute; reflexivity|].
    split; [exact bad_crc_float|].
    intros _ raw Hr E. destruct (Hconv raw Hr) as (_ & _ & Hle).
    pose proof bad_crc_float. lra.
  - destruct (Hconv _ (masked_range raw)) as (Hfin & Hlo & Hle).
    split; [exact Hfin|]. split.
    + unfold kind_of_reading.
      rewrite !Qeq_bool_below; [reflexivity | |];
        unfold ERROR_BAD_CRC, ERROR_I2C_TIMEOUT, inject_Z; lra.
    + split; [split; assumption|]. intros Hne. contradiction Hne. reflexivity.
Qed.

(** C7: a failed [readHumidity] or [readTemperature] returns the number
    998 (timeout) or 999 (CRC), which no conversion of a raw value
    produces: humidity readings lie in [-6, 119] and temperature
    readings in [-46.85, 128.87].  The returned number therefore tells
    the two failures from each other and from every reading. *)
Theorem read_failures_distinguishable (hdr : Header) (fuel : nat)
        (w : TwoWire) :
  (Z.to_nat MAX_COUNTER <= fuel)%nat ->
  (exists o r w' f,
     readValue_traced hdr fuel (TRIGGER_HUMD_MEASURE_NOHOLD hdr) w
       = Some ((o, r), w') /\
     readHumidity hdr fuel w = Some (f, w') /\
     told_apart humidity (-6) 119 o f) /\
  (exists o r w' f,
     readValue_traced hdr fuel (TRIGGER_TEMP_MEASURE_NOHOLD hdr) w
       = Some ((o, r), w') /\
     readTemperature hdr fuel w = Some (f, w') /\
     told_apart celsius (-4685 # 100) (12887 # 100) o f).
Proof.
  intros Hf. split.
  - destruct (readValue_traced_total hdr fuel
                (TRIGGER_HUMD_MEASURE_NOHOLD hdr) w Hf)
      as (o & r & w' & E & _ & _ & _).
    exists o, r, w', (reading humidity o r).
    split; [exact E|]. split; [apply readHumidity_reading; exact E|].
    apply reading_told_apart.
    + intros raw Hr. destruct (humidity_facts raw Hr) as (? & _ & ? & ?).
      auto.
    + lra.
    + exact (readValue_traced_cases _ _ _ _ _ _ _ E).
  - destruct (readValue_traced_total hdr fuel
                (TRIGGER_TEMP_MEASURE_NOHOLD hdr) w Hf)
      as (o & r & w' & E & _ & _ & _).
    exists o, r, w', (reading celsius o r).
    split; [exact E|]. split; [apply readTemperature_reading; exact E|].
    apply reading_told_apart.
    + intros raw Hr. destruct (celsius_facts raw Hr) as (? & _ & ? & ?).
      auto.
    + lra.
    + exact (readValue_traced_cases _ _ _ _ _ _ _ E).
Qed.

Lemma read_failures_distinguishable_witness :
  (exists o r w' f,
     readValue_traced datasheet 10 (TRIGGER_HUMD_MEASURE_NOHOLD datasheet)
       (fresh [[0x4E; 0x85; 0x6A]]) = Some ((o, r), w') /\
     readHumidity datasheet 10 (fresh [[0x4E; 0x85; 0x6A]]) = Some (f, w') /\
     told_apart humidity (-6) 119 o f) /\
  (exists o r w' f,
     readValue_traced datasheet 10 (TRIGGER_TEMP_MEASURE_NOHOLD datasheet)
       (fresh [[0x4E; 0x85; 0x6A]]) = Some ((o, r), w') /\
     readTemperature datasheet 10 (fresh [[0x4E; 0x85; 0x6A]])
       = Some (f, w') /\
     told_apart celsius (-4685 # 100) (12887 # 100) o f).
Proof.
  apply (read_failures_distinguishable datasheet 10
           (fresh [[0x4E; 0x85; 0x6A]])).
  vm_compute. apply le_n.
Defined.

(** C8: on a measurement [readHumidity] and [readTemperature] return
    [humidity raw] and [celsius raw], functions of the raw value alone;
    [humidity raw] is exactly [raw * 125 / 65536 - 6] and [celsius raw]
    is [raw * 175.72 / 65536 - 46.85] to within [2^-16]; in particular
    [humidity 0 = -6], [humidity 65535] is 118.998 to three decimals,
    [celsius 0] is -46.85 to within [2^-16] and [celsius 65535] is
    128.87 to two decimals. *)
Theorem conversion_formulas (hdr : Header) (fuel : nat) (w wh wt : TwoWire)
        (rh rt raw : Z) :
  (readValue_traced hdr fuel (TRIGGER_HUMD_MEASURE_NOHOLD hdr) w
     = Some ((Measured, rh), wh) ->
   readHumidity hdr fuel w = Some (humidity rh, wh)) /\
  (readValue_traced hdr fuel (TRIGGER_TEMP_MEASURE_NOHOLD hdr) w
     = Some ((Measured, rt), wt) ->
   readTemperature hdr fuel w = Some (celsius rt, wt)) /\
  (0 <= raw < 65536 ->
   (SF2Q (humidity raw) == inject_Z raw * (125 # 65536) - 6)%Q /\
   (Qabs (SF2Q (celsius raw)
          - (inject_Z raw * (17572 # 6553600) - (4685 # 100)))
    <= 1 # 65536)%Q) /\
  (SF2Q (humidity 0) == -6)%Q /\
  (Qabs (SF2Q (humidity 65535) - (118998 # 1000)) <= 1 # 2000)%Q /\
  (Qabs (SF2Q (celsius 0) - (-4685 # 100)) <= 1 # 65536)%Q /\
  (Qabs (SF2Q (celsius 65535) - (12887 # 100)) <= 1 # 200)%Q.
Proof.
  split; [intros H; apply (readHumidity_reading _ _ _ _ _ _ H)|].
  split; [intros H; apply (readTemperature_reading _ _ _ _ _ _ H)|].
  split.
  { intros Hr. destruct (humidity_facts raw Hr) as (_ & Hh & _).
    destruct (celsius_facts raw Hr) as (_ & Hc & _). auto. }
  split; [apply Qeq_bool_eq; vm_compute; reflexivity|].
  repeat split; apply Qle_bool_imp_le; vm_compute; reflexivity.
Qed.

Lemma conversion_formulas_witness :
  readHumidity datasheet 10 (fresh [[0x4E; 0x85; 0x6B]])
    = Some (humidity 0x4E84, mkWire [] [] 0x40 [] [(0x40, [0xF5])] 1 10) /\
  readTemperature datasheet 10 (fresh [[0x4E; 0x85; 0x6B]])
    = Some (celsius 0x4E84, mkWire [] [] 0x40 [] [(0x40, [0xF3])] 1 10) /\
  (SF2Q (humidity 0x4E84) == inject_Z 0x4E84 * (125 # 65536) - 6)%Q /\
  (Qabs (SF2Q (celsius 0x4E84)
         - (inject_Z 0x4E84 * (17572 # 6553600) - (4685 # 100)))
   <= 1 # 65536)%Q.
Proof.
  destruct (conversion_formulas datasheet 10 (fresh [[0x4E; 0x85; 0x6B]])
              (mkWire [] [] 0x40 [] [(0x40, [0xF5])] 1 10)
              (mkWire [] [] 0x40 [] [(0x40, [0xF3])] 1 10)
              0x4E84 0x4E84 0x4E84) as (Hh & Ht & Hf & _).
  split; [apply Hh; vm_compute; reflexivity|].
  split; [apply Ht; vm_compute; reflexivity|].
  apply Hf. lia.
Defined.

(** C2, as the code has it: a failure is returned in the [float] that
    also carries readings, as the number of [readValue]'s error code,
    998.0 for the timeout and 999.0 for the CRC failure. *)
Theorem failures_returned_as_sentinel_floats (hdr : Header) (fuel : nat)
        (w w' : TwoWire) (o : Outcome) (r : Z) :
  o <> Measured ->
  (readValue_traced hdr fuel (TRIGGER_HUMD_MEASURE_NOHOLD hdr) w
     = Some ((o, r), w') ->
   readHumidity hdr fuel w = Some (float_of_int r, w')) /\
  (readValue_traced hdr fuel (TRIGGER_TEMP_MEASURE_NOHOLD hdr) w
     = Some ((o, r), w') ->
   readTemperature hdr fuel w = Some (float_of_int r, w')) /\
  (forall cmd, readValue_traced hdr fuel cmd w = Some ((o, r), w') ->
   r = match o with Timeout => ERROR_I2C_TIMEOUT | _ => ERROR_BAD_CRC end) /\
  float_of_int ERROR_I2C_TIMEOUT = S754_finite false 16351232 (-14) /\
  float_of_int ERROR_BAD_CRC = S754_finite false 16367616 (-14) /\
  (SF2Q (float_of_int ERROR_I2C_TIMEOUT) == 998)%Q /\
  (SF2Q (float_of_int ERROR_BAD_CRC) == 999)%Q.
Proof.
  intros Hne.
  split.
  { intros H. rewrite (readHumidity_reading _ _ _ _ _ _ H).
    destruct o; try reflexivity. contradiction Hne; reflexivity. }
  split.
  { intros H. rewrite (readTemperature_reading _ _ _ _ _ _ H).
    destruct o; try reflexivity. contradiction Hne; reflexivity. }
  split.
  { intros cmd H.
    destruct (readValue_traced_cases _ _ _ _ _ _ _ H)
      as [(-> & ->)|[(-> & ->)|(-> & _)]]; try reflexivity.
    contradiction Hne; reflexivity. }
  split; [vm_compute; reflexivity|]. split; [vm_compute; reflexivity|].
  split; [exact timeout_float | exact bad_crc_float].
Qed.

Lemma failures_returned_as_sentinel_floats_witness :
  readHumidity datasheet 10 (fresh [])
    = Some (float_of_int 998,
            mkWire [] [] 0x40 [] [(0x40, [0xF5])] 10 100) /\
  readTemperature datasheet 10 (fresh [])
    = Some (float_of_int 998,
            mkWire [] [] 0x40 [] [(0x40, [0xF3])] 10 100).
Proof.
  split.
  - apply (failures_returned_as_sentinel_floats datasheet 10 (fresh [])
             (mkWire [] [] 0x40 [] [(0x40, [0xF5])] 10 100) Timeout 998).
    + discriminate.
    + vm_compute. reflexivity.
  - apply (failures_returned_as_sentinel_floats datasheet 10 (fresh [])
             (mkWire [] [] 0x40 [] [(0x40, [0xF3])] 10 100) Timeout 998).
    + discriminate.
    + vm_compute. reflexivity.
Defined.

(** C2 as stated fails: after a timeout [readHumidity] returns the
    finite [float] 998.0, the error code of [readValue] converted to
    the type of a reading, and after a CRC failure the [float] 999.0. *)
Lemma failure_is_a_float_number :
  exists w1 w2,
    readValue_traced datasheet 10 0xF5 (fresh [])
      = Some ((Timeout, ERROR_I2C_TIMEOUT), w1) /\
    readHumidity datasheet 10 (fresh [])
      = Some (S754_finite false 16351232 (-14), w1) /\
    (SF2Q (S754_finite false 16351232 (-14)) == 998)%Q /\
    readValue_traced datasheet 10 0xF5 (fresh [[0x4E; 0x85; 0x6A]])
      = Some ((CrcMismatch, ERROR_BAD_CRC), w2) /\
    readHumidity datasheet 10 (fresh [[0x4E; 0x85; 0x6A]])
      = Some (S754_finite false 16367616 (-14), w2) /\
    (SF2Q (S754_finite false 16367616 (-14)) == 999)%Q.
Proof.
  do 2 eexists.
  split; [vm_compute; reflexivity|]. split; [vm_compute; reflexivity|].
  split; [apply Qeq_bool_eq; vm_compute; reflexivity|].
  split; [vm_compute; reflexivity|]. split; [vm_compute; reflexivity|].
  apply Qeq_bool_eq; vm_compute; reflexivity.
Qed.

(** * Further properties of the driver *)

(** ** What [checkCRC] computes and which corruptions it catches *)

Lemma checkCRC_remainder_lxor (v c : Z) :
  0 <= c < 256 -> checkCRC v c = Z.lxor (checkCRC v 0) c.
Proof.
  intros Hc.
  pose proof (checkCRC_lxor v 0 0 c ltac:(lia) Hc) as E.
  rewrite Z.lxor_0_r, Z.lxor_0_l in E. rewrite E.
  rewrite (checkCRC_zero_message c Hc). reflexivity.
Qed.

(** X1: [checkCRC] returns the bitwise difference between the checksum the
    sensor computes for the message and the checksum received, so it
    returns 0 for exactly one check value per message. *)
Theorem checkCRC_is_checksum_difference (v c : Z) :
  0 <= v < 65536 -> 0 <= c < 256 ->
  checkCRC v c = Z.lxor (crc8 v) c /\
  (checkCRC v c = 0 <-> c = crc8 v).
Proof.
  intros Hv Hc.
  assert (E : checkCRC v c = Z.lxor (crc8 v) c)
    by (rewrite (crc8_is_remainder v Hv); apply checkCRC_remainder_lxor, Hc).
  split; [exact E|]. rewrite E, Z.lxor_eq_0_iff. split; congruence.
Qed.

Lemma checkCRC_is_checksum_difference_witness :
  checkCRC 0x683A 0x7D = Z.lxor (crc8 0x683A) 0x7D /\
  (checkCRC 0x683A 0x7D = 0 <-> 0x7D = crc8 0x683A).
Proof. apply (checkCRC_is_checksum_difference 0x683A 0x7D); lia. Defined.

(** The message and check value received when the bits set in the
    24-bit pattern [e] are flipped on the way: bits 23..8 of [e] hit
    the message, bits 7..0 the check value, as [checkCRC] lays them
    out in its dividend. *)
Definition corrupt (e v c : Z) : Z * Z :=
  (Z.lxor v (Z.shiftr e 8), Z.lxor c (u8 e)).

(** What [checkCRC] returns for the error pattern alone. *)
Definition syndrome (e : Z) : Z := checkCRC (Z.shiftr e 8) (u8 e).

Lemma checkCRC_corrupt (e v c : Z) :
  0 <= c < 256 ->
  checkCRC (fst (corrupt e v c)) (snd (corrupt e v c)) =
  Z.lxor (checkCRC v c) (syndrome e).
Proof.
  intros Hc. unfold corrupt, syndrome. cbn [fst snd].
  apply checkCRC_lxor; [exact Hc | apply u8_range].
Qed.

Definition flips3_caught (i j k : Z) : bool :=
  if (i <? 24) && (j <? 24) && (k <? 24)
  then negb (syndrome (Z.lxor (Z.lxor (2 ^ i) (2 ^ j)) (2 ^ k)) =? 0)
  else true.

Definition flips2_caught (i j : Z) : bool :=
  if (i <? 24) && (j <? 24) && negb (i =? j)
  then negb (syndrome (Z.lxor (2 ^ i) (2 ^ j)) =? 0)
  else true.

Lemma flips3_caught_all :
  all_bits 5 0 (fun i => all_bits 5 0 (fun j => all_bits 5 0 (flips3_caught i j)))
  = true.
Proof. vm_cast_no_check (eq_refl true). Qed.

Lemma flips2_caught_all :
  all_bits 5 0 (fun i => all_bits 5 0 (flips2_caught i)) = true.
Proof. vm_cast_no_check (eq_refl true). Qed.

Lemma flips_caught_spec (i j k : Z) :
  0 <= i < 24 -> 0 <= j < 24 -> 0 <= k < 24 ->
  syndrome (Z.lxor (Z.lxor (2 ^ i) (2 ^ j)) (2 ^ k)) <> 0 /\
  (i <> j -> syndrome (Z.lxor (2 ^ i) (2 ^ j)) <> 0).
Proof.
  intros Hi Hj Hk. split.
  - pose proof (all_bits_below 5 _ flips3_caught_all i ltac:(simpl; lia)) as H.
    cbv beta in H.
    pose proof (all_bits_below 5 _ H j ltac:(simpl; lia)) as H'.
    cbv beta in H'.
    pose proof (all_bits_below 5 _ H' k ltac:(simpl; lia)) as H''.
    unfold flips3_caught in H''.
    replace ((i <? 24) && (j <? 24) && (k <? 24)) with true in H'' by lia.
    apply Z.eqb_neq, negb_true_iff. exact H''.
  - intros Hne.
    pose proof (all_bits_below 5 _ flips2_caught_all i ltac:(simpl; lia)) as H.
    cbv beta in H.
    pose proof (all_bits_below 5 _ H j ltac:(simpl; lia)) as H'.
    unfold flips2_caught in H'.
    replace ((i <? 24) && (j <? 24) && negb (i =? j)) with true in H' by lia.
    apply Z.eqb_neq, negb_true_iff. exact H'.
Qed.

(** X2: a pair that [checkCRC] accepts is rejected once any three of the
    24 transmitted bits (so also any one of them), or any two different
    ones, are flipped. *)
Theorem checkCRC_catches_three_flips (v c i j k : Z) :
  0 <= c < 256 -> checkCRC v c = 0 ->
  0 <= i < 24 -> 0 <= j < 24 -> 0 <= k < 24 ->
  (let '(v', c') := corrupt (Z.lxor (Z.lxor (2 ^ i) (2 ^ j)) (2 ^ k)) v c in
   checkCRC v' c' <> 0) /\
  (i <> j ->
   let '(v', c') := corrupt (Z.lxor (2 ^ i) (2 ^ j)) v c in
   checkCRC v' c' <> 0).
Proof.
  intros Hc Hok Hi Hj Hk.
  destruct (flips_caught_spec i j k Hi Hj Hk) as [H3 H2].
  split.
  - pose proof (checkCRC_corrupt (Z.lxor (Z.lxor (2 ^ i) (2 ^ j)) (2 ^ k))
                  v c Hc) as E.
    destruct (corrupt _ v c) as [v' c']. cbn [fst snd] in E.
    rewrite E, Hok, Z.lxor_0_l. exact H3.
  - intros Hne.
    pose proof (checkCRC_corrupt (Z.lxor (2 ^ i) (2 ^ j)) v c Hc) as E.
    destruct (corrupt _ v c) as [v' c']. cbn [fst snd] in E.
    rewrite E, Hok, Z.lxor_0_l. exact (H2 Hne).
Qed.

Lemma checkCRC_catches_three_flips_witness :
  (let '(v', c') :=
     corrupt (Z.lxor (Z.lxor (2 ^ 3) (2 ^ 11)) (2 ^ 20)) 0x4E85 0x6B in
   checkCRC v' c' <> 0) /\
  (3 <> 11 ->
   let '(v', c') := corrupt (Z.lxor (2 ^ 3) (2 ^ 11)) 0x4E85 0x6B in
   checkCRC v' c' <> 0).
Proof.
  apply (checkCRC_catches_three_flips 0x4E85 0x6B 3 11 20);
    try lia. vm_compute. reflexivity.
Defined.

Definition burst_caught (b s : Z) : bool :=
  if negb (b =? 0) && (s <=? 16)
  then negb (syndrome (Z.shiftl b s) =? 0)
  else true.

Lemma burst_caught_all :
  all_bits 8 0 (fun b => all_bits 5 0 (burst_caught b)) = true.
Proof. vm_cast_no_check (eq_refl true). Qed.

(** X3: a pair that [checkCRC] accepts is rejected after any error burst of
    at most 8 bits: any nonzero change confined to 8 neighbouring bits
    of the 24 transmitted. *)
Theorem checkCRC_catches_bursts (v c b s : Z) :
  0 <= c < 256 -> checkCRC v c = 0 ->
  1 <= b < 256 -> 0 <= s <= 16 ->
  let '(v', c') := corrupt (Z.shiftl b s) v c in
  checkCRC v' c' <> 0.
Proof.
  intros Hc Hok Hb Hs.
  pose proof (all_bits_below 8 _ burst_caught_all b ltac:(simpl; lia)) as H.
  cbv beta in H.
  pose proof (all_bits_below 5 _ H s ltac:(simpl; lia)) as H'.
  unfold burst_caught in H'.
  replace (negb (b =? 0) && (s <=? 16)) with true in H' by lia.
  apply negb_true_iff, Z.eqb_neq in H'.
  pose proof (checkCRC_corrupt (Z.shiftl b s) v c Hc) as E.
  destruct (corrupt _ v c) as [v' c']. cbn [fst snd] in E.
  rewrite E, Hok, Z.lxor_0_l. exact H'.
Qed.

Lemma checkCRC_catches_bursts_witness :
  let '(v', c') := corrupt (Z.shiftl 0xA5 7) 0x4E85 0x6B in
  checkCRC v' c' <> 0.
Proof.
  apply (checkCRC_catches_bursts 0x4E85 0x6B 0xA5 7); try lia.
  vm_compute. reflexivity.
Defined.

(** ** A measurement, from the first reply that has 3 bytes *)

Lemma skipn_tl {A} (n : nat) (l : list A) : skipn n (tl l) = skipn (S n) l.
Proof. destruct l; [apply skipn_nil | reflexivity]. Qed.

Lemma nth_tl {A} (n : nat) (l : list A) (d : A) :
  nth n (tl l) d = nth (S n) l d.
Proof. destruct l; [destruct n; reflexivity | reflexivity]. Qed.

Lemma nth_0_hd {A} (l : list A) (d : A) : nth 0 l d = hd d l.
Proof. destruct l; reflexivity. Qed.

Ltac same_port :=
  change DELAY_INTERVAL with 10;
  match goal with
  | |- Some (?a, ?b, mkWire ?r ?x ?ta ?tb ?s ?rq ?el) =
       Some (?a', ?b', mkWire ?r' ?x' ?ta' ?tb' ?s' ?rq' ?el') =>
      replace a' with a by lia;
      replace rq' with rq by lia;
      replace el' with el by lia
  end;
  reflexivity.

(** When reply number [k] (from 0) is the first with 3 bytes and the
    loop has that many turns left below the ceiling, it ends there,
    with the 3 bytes in the receive buffer. *)
Lemma poll_first_ready (hdr : Header) (k : nat) :
  forall fuel counter toRead w,
  0 <= counter -> counter + Z.of_nat k < MAX_COUNTER -> toRead <> 3 ->
  (k < fuel)%nat ->
  (forall j, (j < k)%nat -> ~ ready (nth j (replies w) [])) ->
  ready (nth k (replies w) []) ->
  poll hdr fuel counter toRead w =
  Some ((counter + Z.of_nat k + 1, 3),
        mkWire (skipn (S k) (replies w)) (firstn 3 (nth k (replies w) []))
               (txAddress w) (txBuffer w) (sent w)
               (requests w + Z.of_nat k + 1)
               (elapsed w + DELAY_INTERVAL * (Z.of_nat k + 1))).
Proof.
  induction k as [|k IH]; intros fuel counter toRead w Hc Hk Ht Hf Hnot Hrdy;
    (destruct fuel as [|fuel]; [lia|]);
    rewrite poll_step by lia.
  - rewrite nth_0_hd in Hrdy. pose proof Hrdy as Hg. apply got_ready in Hg.
    rewrite Hg, poll_exit by (rewrite Z.eqb_refl; apply andb_false_r).
    unfold after_request. rewrite nth_0_hd, <- skipn_tl.
    cbn [skipn]. same_port.
  - assert (Hg : got w <> 3).
    { rewrite got_ready, <- nth_0_hd. apply Hnot. lia. }
    rewrite (IH fuel (counter + 1) (got w) (after_request w));
      try lia; try assumption.
    + cbn [after_request replies rxBuffer txAddress txBuffer sent requests
           elapsed].
      rewrite skipn_tl, nth_tl. same_port.
    + intros j Hj. cbn [after_request replies]. rewrite nth_tl.
      apply Hnot. lia.
    + cbn [after_request replies]. rewrite nth_tl. exact Hrdy.
Qed.

Lemma assemble_bytes (msb lsb : Z) :
  0 <= msb < 256 -> 0 <= lsb < 256 ->
  u16 (Z.lor (Z.shiftl (u16 msb) 8) (u16 lsb)) = msb * 256 + lsb.
Proof.
  intros Hm Hl. apply Z.eqb_eq.
  pose proof (all_bits_below 8
    (fun m => all_bits 8 0
       (fun l => u16 (Z.lor (Z.shiftl (u16 m) 8) (u16 l)) =? m * 256 + l))
    ltac:(vm_compute; reflexivity) msb Hm) as H.
  cbv beta in H. exact (all_bits_below 8 _ H lsb Hl).
Qed.

Lemma clear_status_bits (rawValue : Z) :
  0 <= rawValue < 65536 ->
  Z.land rawValue 0xFFFC = rawValue - rawValue mod 4.
Proof.
  intros Hr. apply Z.eqb_eq.
  apply (all_bits_below 16 (fun x => Z.land x 65532 =? x - x mod 4));
    [vm_compute; reflexivity | exact Hr].
Qed.

(** [readValue] on a port whose first reply with 3 bytes is reply
    number [k] (from 0), for [k] below 9. *)
Lemma readValue_at_first_ready (hdr : Header) (fuel : nat) (cmd : Z)
        (w : TwoWire) (k : nat) (msb lsb crc : Z) (rest : list Z) :
  (k < 9)%nat -> (k < fuel)%nat ->
  (forall j, (j < k)%nat -> ~ ready (nth j (replies w) [])) ->
  nth k (replies w) [] = msb :: lsb :: crc :: rest ->
  readValue_traced hdr fuel cmd w =
  Some (let rawValue := u8 msb * 256 + u8 lsb in
        if checkCRC rawValue (u8 crc) =? 0
        then (Measured, rawValue - rawValue mod 4)
        else (CrcMismatch, ERROR_BAD_CRC),
        mkWire (skipn (S k) (replies w)) []
               (HTU21D_ADDRESS hdr) []
               (sent w ++ [(HTU21D_ADDRESS hdr, [u8 cmd])])
               (requests w + (Z.of_nat k + 1))
               (elapsed w + 10 * (Z.of_nat k + 1))).
Proof.
  intros Hk Hf Hnot Hnth.
  rewrite readValue_traced_unfold.
  rewrite (poll_first_ready hdr k fuel 0 0 (triggered hdr cmd w));
    try (change MAX_COUNTER with 10; lia); try assumption;
    [|cbn [triggered replies]; rewrite Hnth; reflexivity].
  cbn [fst triggered replies rxBuffer txAddress txBuffer sent requests
       elapsed].
  rewrite Hnth. cbn [firstn].
  unfold fetch.
  replace (0 + Z.of_nat k + 1 =? MAX_COUNTER) with false
    by (symmetry; apply Z.eqb_neq; change MAX_COUNTER with 10; lia).
  unfold bind, read.
  cbn [replies rxBuffer txAddress txBuffer sent requests elapsed].
  rewrite (assemble_bytes (u8 msb) (u8 lsb)) by apply u8_range.
  assert (Hraw : 0 <= u8 msb * 256 + u8 lsb < 65536)
    by (pose proof (u8_range msb); pose proof (u8_range lsb); lia).
  rewrite (clear_status_bits _ Hraw).
  change DELAY_INTERVAL with 10.
  destruct (checkCRC (u8 msb * 256 + u8 lsb) (u8 crc) =? 0);
    cbn [negb]; unfold ret; do 3 f_equal; lia.
Qed.

(** X4: if the first reply with 3 bytes comes on one of the first nine
    requests, [readValue] stops polling there, after one 10 ms delay
    per request made, and answers from those bytes alone: the 16-bit
    word [msb * 256 + lsb] less its two status bits when the third
    byte is its checksum, the CRC error code otherwise.  It transmits
    the command byte and nothing else. *)
Theorem readValue_first_ready (hdr : Header) (fuel : nat) (cmd : Z)
        (w : TwoWire) (k : nat) (msb lsb crc : Z) (rest : list Z) :
  (k < 9)%nat -> (k < fuel)%nat ->
  (forall j, (j < k)%nat -> ~ ready (nth j (replies w) [])) ->
  nth k (replies w) [] = msb :: lsb :: crc :: rest ->
  let rawValue := u8 msb * 256 + u8 lsb in
  let w' := mkWire (skipn (S k) (replies w)) []
                   (HTU21D_ADDRESS hdr) []
                   (sent w ++ [(HTU21D_ADDRESS hdr, [u8 cmd])])
                   (requests w + (Z.of_nat k + 1))
                   (elapsed w + 10 * (Z.of_nat k + 1)) in
  readValue_traced hdr fuel cmd w =
    Some (if checkCRC rawValue (u8 crc) =? 0
          then (Measured, rawValue - rawValue mod 4)
          else (CrcMismatch, ERROR_BAD_CRC), w') /\
  readValue hdr fuel cmd w =
    Some (if checkCRC rawValue (u8 crc) =? 0
          then rawValue - rawValue mod 4
          else ERROR_BAD_CRC, w').
Proof.
  intros Hk Hf Hnot Hnth rawValue w'.
  pose proof (readValue_at_first_ready hdr fuel cmd w k msb lsb crc rest
                Hk Hf Hnot Hnth) as E.
  cbv zeta in E. fold rawValue in E. fold w' in E.
  split; [exact E|].
  rewrite readValue_unfold, E.
  destruct (checkCRC rawValue (u8 crc) =? 0); reflexivity.
Qed.

Lemma readValue_first_ready_witness :
  readValue_traced datasheet 10 0xF5
    (fresh [[]; [0x12]; [0x68; 0x3A; 0x7C; 0x99]; [0x4E; 0x85; 0x6B]]) =
    Some ((Measured, 0x6838),
          mkWire [[0x4E; 0x85; 0x6B]] [] 0x40 [] [(0x40, [0xF5])] 3 30) /\
  readValue datasheet 10 0xF5
    (fresh [[]; [0x12]; [0x68; 0x3A; 0x7C; 0x99]; [0x4E; 0x85; 0x6B]]) =
    Some (0x6838,
          mkWire [[0x4E; 0x85; 0x6B]] [] 0x40 [] [(0x40, [0xF5])] 3 30).
Proof.
  apply (readValue_first_ready datasheet 10 0xF5
           (fresh [[]; [0x12]; [0x68; 0x3A; 0x7C; 0x99]; [0x4E; 0x85; 0x6B]])
           2 0x68 0x3A 0x7C [0x99]).
  - lia.
  - lia.
  - intros j Hj. destruct j as [|[|j]]; [| |lia]; vm_compute; discriminate.
  - reflexivity.
Defined.

(** ** What [readValue] does to the port, whatever the device does *)





Lemma readValue_timeout_iff_witness :
  Timeout = Timeout <->
  Forall (fun reply => ~ ready reply)
         (firstn (Z.to_nat (MAX_COUNTER - 1))
                 (replies (fresh (repeat [0x4E; 0x85] 9
                                  ++ [[0x4E; 0x85; 0x6B]])))).
Proof.
  eapply (readValue_timeout_iff datasheet 10 0xF5
            (fresh (repeat [0x4E; 0x85] 9 ++ [[0x4E; 0x85; 0x6B]]))).
  vm_compute. reflexivity.
Defined.

(** ** From the bytes on the bus to the reading *)

(** X7: when the first reply with 3 bytes comes on one of the first nine
    requests and its third byte is the checksum of the first two,
    [readHumidity] returns exactly [raw * 125 / 65536 - 6] and
    [readTemperature] returns [raw * 175.72 / 65536 - 46.85] to within
    [2^-16], where [raw] is the word [msb * 256 + lsb] less its two
    status bits. *)
Theorem reading_from_bytes (hdr : Header) (fuel : nat) (w : TwoWire)
        (k : nat) (msb lsb crc : Z) (rest : list Z) :
  (k < 9)%nat -> (k < fuel)%nat ->
  (forall j, (j < k)%nat -> ~ ready (nth j (replies w) [])) ->
  nth k (replies w) [] = msb :: lsb :: crc :: rest ->
  checkCRC (u8 msb * 256 + u8 lsb) (u8 crc) = 0 ->
  let raw := (u8 msb * 256 + u8 lsb) - (u8 msb * 256 + u8 lsb) mod 4 in
  (exists f w',
     readHumidity hdr fuel w = Some (f, w') /\
     (SF2Q f == inject_Z raw * (125 # 65536) - 6)%Q) /\
  (exists f w',
     readTemperature hdr fuel w = Some (f, w') /\
     (Qabs (SF2Q f - (inject_Z raw * (17572 # 6553600) - (4685 # 100)))
      <= 1 # 65536)%Q).
Proof.
  intros Hk Hf Hnot Hnth Hcrc raw.
  assert (Hraw : 0 <= raw < 65536).
  { subst raw. pose proof (u8_range msb). pose proof (u8_range lsb).
    pose proof (Z.mod_pos_bound (u8 msb * 256 + u8 lsb) 4 ltac:(lia)).
    pose proof (Z.mod_le (u8 msb * 256 + u8 lsb) 4 ltac:(lia) ltac:(lia)).
    lia. }
  split.
  - pose proof (readValue_at_first_ready hdr fuel
                  (TRIGGER_HUMD_MEASURE_NOHOLD hdr) w k msb lsb crc rest
                  Hk Hf Hnot Hnth) as E.
    cbv zeta in E. rewrite Hcrc in E. cbn [Z.eqb] in E.
    do 2 eexists. split.
    + apply (readHumidity_reading _ _ _ _ _ _ E).
    + cbn [reading]. apply (humidity_facts raw Hraw).
  - pose proof (readValue_at_first_ready hdr fuel
                  (TRIGGER_TEMP_MEASURE_NOHOLD hdr) w k msb lsb crc rest
                  Hk Hf Hnot Hnth) as E.
    cbv zeta in E. rewrite Hcrc in E. cbn [Z.eqb] in E.
    do 2 eexists. split.
    + apply (readTemperature_reading _ _ _ _ _ _ E).
    + cbn [reading]. apply (celsius_facts raw Hraw).
Qed.

Lemma reading_from_bytes_witness :
  (exists f w',
     readHumidity datasheet 10 (fresh [[0x00]; [0x68; 0x3A; 0x7C]])
       = Some (f, w') /\
     (SF2Q f ==
      inject_Z ((u8 0x68 * 256 + u8 0x3A) - (u8 0x68 * 256 + u8 0x3A) mod 4)
      * (125 # 65536) - 6)%Q) /\
  (exists f w',
     readTemperature datasheet 10 (fresh [[0x00]; [0x68; 0x3A; 0x7C]])
       = Some (f, w') /\
     (Qabs (SF2Q f -
            (inject_Z ((u8 0x68 * 256 + u8 0x3A)
                       - (u8 0x68 * 256 + u8 0x3A) mod 4)
             * (17572 # 6553600) - (4685 # 100)))
      <= 1 # 65536)%Q).
Proof.
  apply (reading_from_bytes datasheet 10 (fresh [[0x00]; [0x68; 0x3A; 0x7C]])
           1 0x68 0x3A 0x7C []).
  - lia.
  - lia.
  - intros j Hj. destruct j as [|j]; [|lia]. vm_compute. discriminate.
  - reflexivity.
  - vm_compute. reflexivity.
Defined.

(** ** The conversions keep raw values apart *)

(** X8: both conversions are strictly increasing on 16-bit raw values:
    the rounding to [float] never merges two different raw values into
    one reading. *)
Theorem conversions_strictly_increasing (raw1 raw2 : Z) :
  0 <= raw1 -> raw1 < raw2 -> raw2 < 65536 ->
  (SF2Q (humidity raw1) < SF2Q (humidity raw2))%Q /\
  (SF2Q (celsius raw1) < SF2Q (celsius raw2))%Q.
Proof.
  intros H0 H12 H2.
  destruct (humidity_facts raw1 ltac:(lia)) as (_ & Hh1 & _).
  destruct (humidity_facts raw2 ltac:(lia)) as (_ & Hh2 & _).
  destruct (celsius_facts raw1 ltac:(lia)) as (_ & Hc1 & _).
  destruct (celsius_facts raw2 ltac:(lia)) as (_ & Hc2 & _).
  apply Qabs_Qle_condition in Hc1. apply Qabs_Qle_condition in Hc2.
  assert (Hq : (inject_Z raw1 + 1 <= inject_Z raw2)%Q).
  { change 1%Q with (inject_Z 1). rewrite <- inject_Z_plus.
    rewrite <- Zle_Qle. lia. }
  split; lra.
Qed.

Lemma conversions_strictly_increasing_witness :
  (SF2Q (humidity 0x4E84) < SF2Q (humidity 0x4E88))%Q /\
  (SF2Q (celsius 0x4E84) < SF2Q (celsius 0x4E88))%Q.
Proof. apply (conversions_strictly_increasing 0x4E84 0x4E88); lia. Defined.

(** ** More on the user register *)

(** The byte [readUserRegister] returns: the first byte the device
    delivers, or the -1 of an empty buffer as a byte. *)
Definition register_byte (w : TwoWire) : Z :=
  u8 (hd (-1) (hd [] (replies w))).

(** The byte [setResolution] writes back. *)
Definition new_register (w : TwoWire) (resolution : Z) : Z :=
  u8 (Z.lor (Z.land (register_byte w) B01111110)
            (Z.land (u8 resolution) B10000001)).

Lemma readUserRegister_eq (hdr : Header) (w : TwoWire) :
  readUserRegister hdr w =
  Some (register_byte w,
        mkWire (tl (replies w)) []
               (HTU21D_ADDRESS hdr) []
               (sent w ++ [(HTU21D_ADDRESS hdr, [u8 (READ_USER_REG hdr)])])
               (requests w + 1) (elapsed w)).
Proof.
  unfold register_byte. destruct w as [rs rx ta tb se rq el].
  destruct rs as [|[|b r] rs]; reflexivity.
Qed.

Lemma setResolution_eq (hdr : Header) (resolution : Z) (w : TwoWire) :
  setResolution hdr resolution w =
  Some (tt,
        mkWire (tl (replies w)) []
               (HTU21D_ADDRESS hdr) []
               (sent w ++ [(HTU21D_ADDRESS hdr, [u8 (READ_USER_REG hdr)]);
                           (HTU21D_ADDRESS hdr,
                            [u8 (WRITE_USER_REG hdr);
                             new_register w resolution])])
               (requests w + 1) (elapsed w)).
Proof.
  unfold setResolution, bind. rewrite readUserRegister_eq.
  unfold writeUserRegister, bind, beginTransmission, write, endTransmission,
    new_register.
  cbn [replies rxBuffer txAddress txBuffer sent requests elapsed app].
  rewrite <- app_assoc. reflexivity.
Qed.

Lemma new_register_bits (w : TwoWire) (resolution i : Z) :
  0 <= i ->
  Z.testbit (new_register w resolution) i =
  if (i =? 7) || (i =? 0) then Z.testbit resolution i
  else Z.testbit (register_byte w) i.
Proof.
  intros Hi. unfold new_register. rewrite resolution_bits by exact Hi.
  destruct ((i =? 7) || (i =? 0)); [reflexivity|].
  unfold register_byte. rewrite u8_testbit by exact Hi.
  rewrite <- andb_assoc, andb_diag. reflexivity.
Qed.

(** X9: [readUserRegister] takes whatever the first byte of the reply to
    its request is, without looking at how many bytes came: when the
    device delivers none it returns [0xFF], and [setResolution] then
    writes [0x7E | (resolution & 0x81)], turning on every bit other
    than the two resolution bits. *)
Theorem register_access_without_reply (hdr : Header) (resolution : Z)
        (w : TwoWire) :
  hd [] (replies w) = [] ->
  (exists w1, readUserRegister hdr w = Some (0xFF, w1)) /\
  (exists w',
     setResolution hdr resolution w = Some (tt, w') /\
     sent w' =
       sent w ++ [(HTU21D_ADDRESS hdr, [u8 (READ_USER_REG hdr)]);
                  (HTU21D_ADDRESS hdr,
                   [u8 (WRITE_USER_REG hdr);
                    Z.lor 0x7E (Z.land resolution 0x81)])]).
Proof.
  intros Hnone.
  assert (Hreg : register_byte w = 255)
    by (unfold register_byte; rewrite Hnone; reflexivity).
  split.
  - rewrite readUserRegister_eq, Hreg. eauto.
  - rewrite setResolution_eq. eexists. split; [reflexivity|].
    cbn [sent].
    replace (new_register w resolution)
      with (Z.lor 126 (Z.land resolution 129)); [reflexivity|].
    symmetry. apply Z.bits_inj'. intros i Hi.
    rewrite new_register_bits, Hreg, Z.lor_spec, Z.land_spec by exact Hi.
    destruct (Z.ltb_spec i 8) as [Hlt|Hge].
    + assert (Hcases : i = 0 \/ i = 1 \/ i = 2 \/ i = 3 \/ i = 4 \/ i = 5 \/
                       i = 6 \/ i = 7) by lia.
      destruct Hcases as [->|[->|[->|[->|[->|[->|[->| ->]]]]]]];
        eval_const_bits; cbn [Z.eqb Pos.eqb orb];
        rewrite ?andb_true_r, ?andb_false_r, ?orb_false_r, ?orb_false_l;
        reflexivity.
    + destruct (Z.eqb_spec i 7); [lia|]. destruct (Z.eqb_spec i 0); [lia|].
      cbn [orb].
      rewrite (testbit_small 255 8 i), (testbit_small 126 8 i),
              (testbit_small 129 8 i) by lia.
      rewrite andb_false_r. reflexivity.
Qed.

Lemma register_access_without_reply_witness :
  (exists w1, readUserRegister datasheet (fresh []) = Some (0xFF, w1)) /\
  (exists w',
     setResolution datasheet 0x01 (fresh []) = Some (tt, w') /\
     sent w' =
       sent (fresh []) ++
       [(HTU21D_ADDRESS datasheet, [u8 (READ_USER_REG datasheet)]);
        (HTU21D_ADDRESS datasheet,
         [u8 (WRITE_USER_REG datasheet); Z.lor 0x7E (Z.land 0x01 0x81)])]).
Proof.
  apply (register_access_without_reply datasheet 0x01 (fresh [])).
  reflexivity.
Defined.

(** The byte last written to the user register on a port. *)
Definition written_register (w : TwoWire) : option Z :=
  match last (sent w) (0, []) with
  | (_, [_; val]) => Some val
  | _ => None
  end.

Lemma written_register_setResolution (hdr : Header) (resolution : Z)
      (w w' : TwoWire) :
  setResolution hdr resolution w = Some (tt, w') ->
  written_register w' = Some (new_register w resolution).
Proof.
  rewrite setResolution_eq. intros H. injection H as <-.
  unfold written_register. cbn [sent].
  change [(HTU21D_ADDRESS hdr, [u8 (READ_USER_REG hdr)]);
          (HTU21D_ADDRESS hdr,
           [u8 (WRITE_USER_REG hdr); new_register w resolution])]
    with ([(HTU21D_ADDRESS hdr, [u8 (READ_USER_REG hdr)])] ++
          [(HTU21D_ADDRESS hdr,
            [u8 (WRITE_USER_REG hdr); new_register w resolution])]).
  rewrite app_assoc, last_last. reflexivity.
Qed.

(** X10: [setResolution] uses its argument through bits 7 and 0 only, and
    setting the same resolution again on a device that answers with
    the register just written writes the same byte again. *)
Theorem setResolution_repeatable (hdr : Header) (resolution other : Z)
        (w w1 w2 w3 : TwoWire) (val : Z) (rest : list Z) :
  Z.testbit other 7 = Z.testbit resolution 7 ->
  Z.testbit other 0 = Z.testbit resolution 0 ->
  setResolution hdr resolution w = Some (tt, w1) ->
  written_register w1 = Some val ->
  hd [] (replies w2) = val :: rest ->
  setResolution hdr resolution w2 = Some (tt, w3) ->
  setResolution hdr other w = Some (tt, w1) /\
  written_register w3 = Some val.
Proof.
  intros H7 H0 H1 Hval Hecho H3.
  rewrite (written_register_setResolution _ _ _ _ H1) in Hval.
  injection Hval as <-.
  split.
  - rewrite <- H1, !setResolution_eq.
    replace (new_register w other) with (new_register w resolution);
      [reflexivity|].
    symmetry.
    apply Z.bits_inj'. intros i Hi. rewrite !new_register_bits by exact Hi.
    destruct (Z.eqb_spec i 7) as [->|]; [exact H7|].
    destruct (Z.eqb_spec i 0) as [->|]; [exact H0|]. reflexivity.
  - rewrite (written_register_setResolution _ _ _ _ H3). f_equal.
    apply Z.bits_inj'. intros i Hi. rewrite !new_register_bits by exact Hi.
    unfold register_byte at 1. rewrite Hecho. cbn [hd].
    rewrite u8_testbit, new_register_bits by exact Hi.
    destruct (Z.eqb_spec i 7) as [->|]; [reflexivity|].
    destruct (Z.eqb_spec i 0) as [->|]; [reflexivity|]. cbn [orb].
    unfold register_byte. rewrite u8_testbit by exact Hi.
    rewrite <- andb_assoc, andb_diag. reflexivity.
Qed.

Lemma setResolution_repeatable_witness :
  setResolution datasheet 0xFF (fresh [[0x3A]])
    = Some (tt, mkWire [] [] 0x40 [] [(0x40, [0xE7]); (0x40, [0xE6; 0xBB])]
                       1 0) /\
  written_register
    (mkWire [] [] 0x40 [] [(0x40, [0xE7]); (0x40, [0xE6; 0xBB])] 1 0)
    = Some 0xBB.
Proof.
  apply (setResolution_repeatable datasheet 0x81 0xFF (fresh [[0x3A]])
           (mkWire [] [] 0x40 [] [(0x40, [0xE7]); (0x40, [0xE6; 0xBB])] 1 0)
           (fresh [[0xBB]])
           (mkWire [] [] 0x40 [] [(0x40, [0xE7]); (0x40, [0xE6; 0xBB])] 1 0)
           0xBB []); reflexivity.
Defined.
